(** * EweGo fleet dashboard: discovery, health polling and fleet query

    A shallow embedding of the operator-station code:
    - [scan_network.py]    ([check_device], [scan_network]),
    - [dashboard_app.py]   ([scan_for_devices], [poll_device_health],
                            [get_devices], [toggle_recording]),
    - [discover_device.py] ([EweGoListener.remove_service]).

    Python dictionaries are modelled as insertion-ordered association
    lists with unique keys, exceptions as an explicit error result, the
    network as an oracle from URLs to HTTP outcomes, and the wall clock
    as an integer that blocking calls advance. *)

From Stdlib Require Import List String Ascii ZArith Bool Lia Permutation.
Import ListNotations.
Open Scope string_scope.
Open Scope Z_scope.

(** ** Values and exceptions *)

(** Decoded JSON bodies, as [response.json()] hands them to the code.
    Objects are the already-decoded Python [dict]: an association list
    whose first binding of a key is the binding.  Numbers are integers;
    fractional numbers play no part in the code modelled here. *)
#[warnings="-register-all"]
Inductive json : Type :=
| JNull : json
| JBool : bool -> json
| JNum : Z -> json
| JStr : string -> json
| JArr : list json -> json
| JObj : list (string * json) -> json.

(** The exceptions the modelled code can meet. *)
Inductive exn : Type :=
| KeyError (key : string)
| TypeError
| AttributeError
| NameError (name : string)
| ValueError
| Timeout
| ConnectionError
| JSONDecodeError.

Inductive result (A : Type) : Type :=
| Ok (a : A)
| Raise (e : exn).
Arguments Ok {A} a.
Arguments Raise {A} e.

Definition bind {A B : Type} (r : result A) (k : A -> result B) : result B :=
  match r with
  | Ok a => k a
  | Raise e => Raise e
  end.

Notation "x <- r ;; k" := (bind r (fun x => k))
  (at level 61, r at next level, right associativity).

(** ** Python dictionaries *)

(** A [dict] keeps its keys in insertion order and holds each key once.
    The operations below are the ones the code uses. *)
Module PyDict.
Section Dict.
Context {K V : Type}.
Variable K_eq_dec : forall x y : K, {x = y} + {x <> y}.

Definition dict := list (K * V).

Definition keys (d : dict) : list K := map fst d.

(** [d.get(k)] *)
Fixpoint get (k : K) (d : dict) : option V :=
  match d with
  | [] => None
  | (k', v) :: rest => if K_eq_dec k k' then Some v else get k rest
  end.

(** [k in d] *)
Definition mem (k : K) (d : dict) : bool :=
  match get k d with Some _ => true | None => false end.

(** [d.get(k, default)] *)
Definition get_default (k : K) (default : V) (d : dict) : V :=
  match get k d with Some v => v | None => default end.

(** [d[k] = v]: an existing key keeps its position, a new key goes last. *)
Fixpoint set (k : K) (v : V) (d : dict) : dict :=
  match d with
  | [] => [(k, v)]
  | (k', v') :: rest =>
      if K_eq_dec k k' then (k', v) :: rest else (k', v') :: set k v rest
  end.

(** [del d[k]] for a key that is present (the callers guard it with
    [k in d]); on an absent key the dictionary is returned as it is. *)
Fixpoint del (k : K) (d : dict) : dict :=
  match d with
  | [] => []
  | (k', v') :: rest =>
      if K_eq_dec k k' then rest else (k', v') :: del k rest
  end.

(** [d.clear()] *)
Definition clear (d : dict) : dict := [].

(** Number of entries stored under [k]. *)
Definition count (k : K) (d : dict) : nat :=
  List.length (filter (fun kv => if K_eq_dec k (fst kv) then true else false) d).

End Dict.
End PyDict.

(** String-keyed dictionaries: JSON objects, health records. *)
Definition obj := list (string * json).
Definition obj_get : string -> obj -> option json := PyDict.get string_dec.
Definition obj_mem : string -> obj -> bool := PyDict.mem string_dec.
Definition obj_get_default : string -> json -> obj -> json :=
  PyDict.get_default string_dec.

(** [d[k]] on a string-keyed dictionary. *)
Definition subscript (d : obj) (k : string) : result json :=
  match obj_get k d with
  | Some v => Ok v
  | None => Raise (KeyError k)
  end.

(** ** The network *)

(** What [requests.get(url, timeout=...)] does: it returns a response with
    a status code, whose [.json()] either decodes or raises, or it raises
    itself ([Timeout], [ConnectionError]). *)
Inductive http_outcome : Type :=
| Response (status_code : Z) (body : result json)
| Failed (e : exn).

(** ** scan_network.py *)

Module Scanner.

(** The dictionary [check_device] returns. *)
Record device : Type := {
  ip : string;
  device_id : json;
  device_name : json;
  battery : json;
  gps : json;
  recording : json;
  network_status : json
}.

(** [needle in data] for a decoded body: key membership on an object,
    element membership on an array, substring on a string, and a
    [TypeError] on the values that are not containers. *)
Definition py_in (needle : string) (data : json) : result bool :=
  match data with
  | JObj o => Ok (obj_mem needle o)
  | JArr l =>
      Ok (existsb (fun j => match j with
                            | JStr s => String.eqb s needle
                            | _ => false
                            end) l)
  | JStr s =>
      Ok (match index 0 needle s with Some _ => true | None => false end)
  | JNull | JBool _ | JNum _ => Raise TypeError
  end.

(** [data.get(k, default)]: only a [dict] has the method. *)
Definition py_get (data : json) (k : string) (default : json) : result json :=
  match data with
  | JObj o => Ok (obj_get_default k default o)
  | _ => Raise AttributeError
  end.

Definition health_url (ip : string) : string :=
  "http://" ++ ip ++ ":5000/api/health".

(** The body of the [try] block of [check_device]; [Ok None] is falling
    through to the final [return None]. *)
Definition check_device_try (net : string -> http_outcome) (ip : string)
  : result (option device) :=
  match net (health_url ip) with
  | Failed e => Raise e
  | Response status_code body =>
      if status_code =? 200 then
        data <- body ;;
        has_id <- py_in "device_id" data ;;
        has_identity <- (if has_id : bool then Ok true
                         else py_in "device_name" data) ;;
        if has_identity : bool then
          did <- py_get data "device_id" (JStr "unknown") ;;
          dname <- py_get data "device_name" (JStr "Unknown Device") ;;
          bat <- py_get data "battery" (JObj []) ;;
          level <- py_get bat "level" (JStr "N/A") ;;
          gp <- py_get data "gps" (JObj []) ;;
          fix_ <- py_get gp "fix" (JStr "unknown") ;;
          rec <- py_get data "recording" (JBool false) ;;
          ns <- py_get data "network_status" (JStr "unknown") ;;
          Ok (Some {| ip := ip; device_id := did; device_name := dname;
                      battery := level; gps := fix_; recording := rec;
                      network_status := ns |})
        else Ok None
      else Ok None
  end.

(** [check_device]: the bare [except: pass] turns every exception into
    [return None]. *)
Definition check_device (net : string -> http_outcome) (ip : string)
  : option device :=
  match check_device_try net ip with
  | Ok r => r
  | Raise _ => None
  end.

(** The collecting loop over [as_completed]: a result that is a device is
    appended, [None] is skipped. *)
Fixpoint collect (net : string -> http_outcome) (completed : list string)
  (devices : list device) : list device :=
  match completed with
  | [] => devices
  | ip :: rest =>
      match check_device net ip with
      | Some result => collect net rest (devices ++ [result])
      | None => collect net rest devices
      end
  end.

(** [scan_network].  [hosts] is [str(ip) for ip in network.hosts()];
    [completion] is the order in which [as_completed] yields the futures
    (one per host); [ThreadPoolExecutor] refuses a pool without workers. *)
Definition scan_network (completion : list string -> list string)
  (net : string -> http_outcome) (hosts : list string) (max_workers : Z)
  : result (list device) :=
  if max_workers <=? 0 then Raise ValueError
  else Ok (collect net (completion hosts) []).

End Scanner.

(** ** dashboard_app.py *)

Module Dashboard.
Import Scanner.

(** Keys of the two global dictionaries, up to key equality.  A
    [device_id] comes out of a decoded body, so it can be any JSON value:
    strings, numbers and [None] hash, and [True]/[False] are equal to the
    keys [1]/[0]; arrays and objects do not hash, and using one as a key
    raises [TypeError].  The key object itself, which a dictionary keeps
    from the first store of a key, is held beside the value
    ([info_key] below). *)
Inductive pykey : Type :=
| KNone : pykey
| KInt : Z -> pykey
| KStr : string -> pykey.

Definition pykey_eq_dec (x y : pykey) : {x = y} + {x <> y}.
Proof. decide equality; [apply Z.eq_dec | apply string_dec]. Defined.

Definition to_key (v : json) : result pykey :=
  match v with
  | JNull => Ok KNone
  | JBool b => Ok (KInt (Z.b2z b))
  | JNum z => Ok (KInt z)
  | JStr s => Ok (KStr s)
  | JArr _ | JObj _ => Raise TypeError
  end.

(** One entry of [discovered_devices]: the key object the dictionary
    holds for it, and the three fields of the value. *)
Record device_info : Type := {
  info_key : json;
  info_ip : string;
  info_url : string;
  info_device_name : json
}.

(** The module's global state.  [recording_state] is a name that the
    module never binds: [None] is the unbound name. *)
Record globals : Type := {
  discovered_devices : list (pykey * device_info);
  device_health_data : list (pykey * obj);
  recording_state : option bool
}.

Definition dev_get := @PyDict.get pykey device_info pykey_eq_dec.
Definition dev_set := @PyDict.set pykey device_info pykey_eq_dec.
Definition dev_count := @PyDict.count pykey device_info pykey_eq_dec.
Definition health_get := @PyDict.get pykey obj pykey_eq_dec.
Definition health_set := @PyDict.set pykey obj pykey_eq_dec.

(** *** Discovery: the block of [scan_for_devices] under the lock *)

Definition entry_of (d : device) : device_info :=
  {| info_key := device_id d;
     info_ip := ip d;
     info_url := "http://" ++ ip d ++ ":5000";
     info_device_name := device_name d |}.

Definition with_key (key : json) (v : device_info) : device_info :=
  {| info_key := key;
     info_ip := info_ip v;
     info_url := info_url v;
     info_device_name := info_device_name v |}.

(** [discovered_devices[device_id] = value]: a key that is already there
    (an equal one) keeps its key object and gets the new value; a new key
    is stored with the key object given. *)
Definition dev_store (k : pykey) (v : device_info)
  (discovered : list (pykey * device_info)) : list (pykey * device_info) :=
  match dev_get k discovered with
  | Some old => dev_set k (with_key (info_key old) v) discovered
  | None => dev_set k v discovered
  end.

(** [for device in devices: discovered_devices[device_id] = {...}];
    an unhashable [device_id] raises out of the loop, leaving what was
    stored so far. *)
Fixpoint store_devices (devices : list device)
  (discovered : list (pykey * device_info))
  : result unit * list (pykey * device_info) :=
  match devices with
  | [] => (Ok tt, discovered)
  | d :: rest =>
      match to_key (device_id d) with
      | Raise e => (Raise e, discovered)
      | Ok k => store_devices rest (dev_store k (entry_of d) discovered)
      end
  end.

(** [discovered_devices.clear()] followed by the loop. *)
Definition publish (devices : list device)
  (discovered : list (pykey * device_info))
  : result unit * list (pykey * device_info) :=
  store_devices devices (PyDict.clear discovered).

(** One iteration of the [while True] loop of [scan_for_devices].
    [network] is what [scan_network] gets from
    [IPv4Network(get_local_network())]: the host addresses of the range,
    or the [ValueError] of a range that does not parse.  The scan runs
    with 50 workers; any exception of the scan or of the publish is caught
    and printed, and the globals stay as they are at that point. *)
Definition scan_for_devices (completion : list string -> list string)
  (net : string -> http_outcome) (network : result (list string))
  (g : globals) : globals :=
  match (hosts <- network ;; scan_network completion net hosts 50) with
  | Raise _ => g
  | Ok devices =>
      {| discovered_devices := snd (publish devices (discovered_devices g));
         device_health_data := device_health_data g;
         recording_state := recording_state g |}
  end.

(** *** Health polling *)

(** The record [poll_device_health] writes; [None] data is [JNull]. *)
Definition health_record (status : string) (data : json) (now : Z) : obj :=
  [("status", JStr status); ("data", data); ("last_updated", JNum now)].

(** The [try] block for one device, given what the request did.  [now]
    is [time.time()] when the record is built. *)
Definition poll_try (outcome : http_outcome) (now : Z) (device_id : pykey)
  (health : list (pykey * obj)) : result (list (pykey * obj)) :=
  match outcome with
  | Failed e => Raise e
  | Response status_code body =>
      if status_code =? 200 then
        data <- body ;;
        Ok (health_set device_id (health_record "online" data now) health)
      else
        Ok (health_set device_id (health_record "error" JNull now) health)
  end.

(** One pass of the loop body, with its [except Exception] handler. *)
Definition poll_one (outcome : http_outcome) (now : Z) (device_id : pykey)
  (health : list (pykey * obj)) : list (pykey * obj) :=
  match poll_try outcome now device_id health with
  | Ok health' => health'
  | Raise _ => health_set device_id (health_record "offline" JNull now) health
  end.

(** The [for] loop over the snapshot.  The request to a URL returns an
    outcome after blocking for some time; the clock has advanced by that
    much when the record is written, and the next request starts there. *)
Fixpoint poll_loop (net : string -> http_outcome * Z)
  (devices_to_poll : list (pykey * device_info)) (clock : Z)
  (health : list (pykey * obj)) : Z * list (pykey * obj) :=
  match devices_to_poll with
  | [] => (clock, health)
  | (device_id, info) :: rest =>
      let '(outcome, elapsed) := net (info_url info ++ "/api/health") in
      let now := clock + elapsed in
      poll_loop net rest now (poll_one outcome now device_id health)
  end.

(** One iteration of the [while True] loop of [poll_device_health]: the
    snapshot, the loop, then [time.sleep(2)]. *)
Definition poll_device_health (net : string -> http_outcome * Z)
  (clock : Z) (g : globals) : Z * globals :=
  let devices_to_poll := discovered_devices g in
  let '(clock', health) :=
    poll_loop net devices_to_poll clock (device_health_data g) in
  (clock' + 2,
   {| discovered_devices := discovered_devices g;
      device_health_data := health;
      recording_state := recording_state g |}).

(** *** Routes *)

Definition default_health : obj :=
  [("status", JStr "unknown"); ("data", JNull); ("last_seen", JNum 0)].

(** The loop of [get_devices]. *)
Fixpoint get_devices_loop (items : list (pykey * device_info))
  (health_data : list (pykey * obj)) (devices_list : list json)
  : result (list json) :=
  match items with
  | [] => Ok devices_list
  | (device_id, info) :: rest =>
      let health :=
        PyDict.get_default pykey_eq_dec device_id default_health health_data in
      status <- subscript health "status" ;;
      data <- subscript health "data" ;;
      last_seen <- subscript health "last_seen" ;;
      get_devices_loop rest health_data
        (devices_list ++
         [JObj [("device_id", info_key info);
                ("device_name", info_device_name info);
                ("ip", JStr (info_ip info));
                ("url", JStr (info_url info));
                ("status", status);
                ("health", data);
                ("last_seen", last_seen)]])
  end.

(** [get_devices]: the JSON document of the response, or the exception
    that leaves the handler. *)
Definition get_devices (g : globals) : result json :=
  devices_list <-
    get_devices_loop (discovered_devices g) (device_health_data g) [] ;;
  Ok (JObj [("devices", JArr devices_list);
            ("count", JNum (Z.of_nat (List.length devices_list)))]).

(** [toggle_recording(device_id)]: the response and the globals after the
    call. *)
Definition toggle_recording (device_id : string) (g : globals)
  : result json * globals :=
  match recording_state g with
  | None => (Raise (NameError "recording_state"), g)
  | Some b =>
      let b' := negb b in
      (Ok (JObj [("recording", JBool b');
                 ("message", JStr (if b' then "Recording started"
                                   else "Recording stopped"))]),
       {| discovered_devices := discovered_devices g;
          device_health_data := device_health_data g;
          recording_state := Some b' |})
  end.

End Dashboard.

(** ** discover_device.py *)

Module Listener.

(** The value [add_service] stores for a service name. *)
Record announced : Type := {
  device_id : string;
  service_name : string;
  version : string;
  ip : string;
  port : Z;
  hostname : string
}.

(** [EweGoListener.remove_service]: [self.devices] before and after. *)
Definition remove_service (name : string)
  (devices : list (string * announced)) : list (string * announced) :=
  if PyDict.mem string_dec name devices
  then PyDict.del string_dec name devices
  else devices.

End Listener.

(** ** Predicates used to state the properties *)

Module Shape.

(** A response that carries device-identity fields: status 200 and a
    decoded object with a [device_id] or a [device_name] key. *)
Definition identity_bearing (o : http_outcome) : bool :=
  match o with
  | Response status_code (Ok (JObj data)) =>
      (status_code =? 200)
      && (obj_mem "device_id" data || obj_mem "device_name" data)
  | _ => false
  end.

(** A telemetry field is absent or is itself an object. *)
Definition object_or_absent (field : string) (data : obj) : bool :=
  match obj_get field data with
  | None => true
  | Some (JObj _) => true
  | Some _ => false
  end.

(** An identity-bearing response whose [battery] and [gps] fields, when
    present, are objects. *)
Definition recognised (o : http_outcome) : bool :=
  match o with
  | Response status_code (Ok (JObj data)) =>
      (status_code =? 200)
      && (obj_mem "device_id" data || obj_mem "device_name" data)
      && object_or_absent "battery" data
      && object_or_absent "gps" data
  | _ => false
  end.

(** A candidate whose identifier can be a dictionary key. *)
Definition hashable (d : Scanner.device) : Prop :=
  exists k, Dashboard.to_key (Scanner.device_id d) = Ok k.

(** The candidates a publish stores: those before the first one whose
    identifier cannot be a dictionary key. *)
Fixpoint stored (devices : list Scanner.device) : list Scanner.device :=
  match devices with
  | [] => []
  | d :: rest =>
      match Dashboard.to_key (Scanner.device_id d) with
      | Ok _ => d :: stored rest
      | Raise _ => []
      end
  end.


(** Total time the requests to the devices of a snapshot block. *)
Definition blocked (net : string -> http_outcome * Z)
  (snapshot : list (Dashboard.pykey * Dashboard.device_info)) : Z :=
  fold_right Z.add 0
    (map (fun item =>
            snd (net (Dashboard.info_url (snd item) ++ "/api/health")))
         snapshot).

End Shape.

(** ** Concrete networks and fleets *)

Module Examples.
Import Scanner Dashboard.

Definition id_order (l : list string) : list string := l.

(** Nobody answers. *)
Definition silent (url : string) : http_outcome := Failed ConnectionError.


(** One address answers with an identifier and a numeric battery. *)
Definition flat_battery (url : string) : http_outcome :=
  if String.eqb url "http://10.0.0.5:5000/api/health"
  then Response 200 (Ok (JObj [("device_id", JStr "pi-01");
                               ("battery", JNum 72)]))
  else Failed ConnectionError.

(** One address answers with a name only and a numeric battery. *)
Definition nameless_flat (url : string) : http_outcome :=
  if String.eqb url "http://10.0.0.5:5000/api/health"
  then Response 200 (Ok (JObj [("device_name", JStr "cam");
                               ("battery", JNum 72)]))
  else Failed ConnectionError.

(** Two addresses answer with a name only, as the device application
    does. *)
Definition nameless (url : string) : http_outcome :=
  if String.eqb url "http://10.0.0.5:5000/api/health"
  then Response 200
         (Ok (JObj [("device_name", JStr "RPi CM4 - Sensor System");
                    ("battery", JObj [("level", JNum 72)])]))
  else if String.eqb url "http://10.0.0.6:5000/api/health"
  then Response 200
         (Ok (JObj [("device_name", JStr "RPi CM4 - Sensor System")]))
  else Failed ConnectionError.

Definition pi01 : device_info :=
  {| info_key := JStr "pi-01";
     info_ip := "10.0.0.5"; info_url := "http://10.0.0.5:5000";
     info_device_name := JStr "RPi CM4 - Sensor System" |}.

Definition pi01_moved : device_info :=
  {| info_key := JStr "pi-01";
     info_ip := "10.0.0.9"; info_url := "http://10.0.0.9:5000";
     info_device_name := JStr "RPi CM4 - Sensor System" |}.

Definition pi02 : device_info :=
  {| info_key := JStr "pi-02";
     info_ip := "10.0.0.6"; info_url := "http://10.0.0.6:5000";
     info_device_name := JStr "RPi CM4 - Sensor System" |}.

(** The dashboard knows one device and has not polled it. *)
Definition one_device : globals :=
  {| discovered_devices := [(KStr "pi-01", pi01)];
     device_health_data := [];
     recording_state := None |}.

Definition two_devices : globals :=
  {| discovered_devices := [(KStr "pi-01", pi01); (KStr "pi-02", pi02)];
     device_health_data := [];
     recording_state := None |}.

Definition with_flag (b : bool) (discovered : list (pykey * device_info))
  : globals :=
  {| discovered_devices := discovered;
     device_health_data := [];
     recording_state := Some b |}.

Definition body02 : json := JObj [("device_id", JStr "pi-02")].

(** Both devices answer; the first at once, the second after a second. *)
Definition prompt (url : string) : http_outcome * Z :=
  if String.eqb url "http://10.0.0.5:5000/api/health"
  then (Response 200 (Ok (JObj [("device_id", JStr "pi-01")])), 0)
  else if String.eqb url "http://10.0.0.6:5000/api/health"
  then (Response 200 (Ok body02), 1)
  else (Failed ConnectionError, 0).

(** The first device lets its probe run into the 3 second timeout; the
    second answers as before. *)
Definition stalled (url : string) : http_outcome * Z :=
  if String.eqb url "http://10.0.0.5:5000/api/health"
  then (Failed Timeout, 3)
  else if String.eqb url "http://10.0.0.6:5000/api/health"
  then (Response 200 (Ok body02), 1)
  else (Failed ConnectionError, 0).

Definition cam (address : string) (id : json) : device :=
  {| Scanner.ip := address; Scanner.device_id := id;
     Scanner.device_name := JStr "cam"; battery := JStr "N/A";
     gps := JStr "unknown"; recording := JBool false;
     network_status := JStr "unknown" |}.

Definition announced_pi01 : Listener.announced :=
  {| Listener.device_id := "pi-01";
     Listener.service_name := "EweGo System Health";
     Listener.version := "1.0";
     Listener.ip := "10.0.0.5";
     Listener.port := 5000;
     Listener.hostname := "pi-01.local" |}.

End Examples.

(** ** Closed forms *)

Module ScanShape.


End ScanShape.

(** ** The dashboard as a whole *)

(** The three threads of [dashboard_app.py] change the globals only
    inside [with discovery_lock] blocks (and in the unlocked
    [toggle_recording]); each such block is one event.  The poller also
    owns the snapshot it is iterating over. *)
Module Station.
Import Scanner Dashboard.

Record station : Type := {
  shared : globals;
  devices_to_poll : list (pykey * device_info)
}.

(** The module as loaded: empty dictionaries, [recording_state] unbound,
    the poller not yet in its loop. *)
Definition started : station :=
  {| shared := {| discovered_devices := [];
                  device_health_data := [];
                  recording_state := None |};
     devices_to_poll := [] |}.

Inductive event : Type :=
| Published (devices : list device)
| Snapshot
| Probed (outcome : http_outcome) (now : Z)
| Toggled (device_id : string)
| Queried.

Definition with_shared (g : globals) (s : station) : station :=
  {| shared := g; devices_to_poll := devices_to_poll s |}.

(** - [Published devices]: the locked block of [scan_for_devices] after a
      scan that returned [devices];
    - [Snapshot]: [devices_to_poll = dict(discovered_devices)], taken when
      the previous [for] loop is over;
    - [Probed outcome now]: the request for the next device of the
      snapshot did [outcome] and its record is written at time [now];
    - [Toggled], [Queried]: the two routes. *)
Definition step (s : station) (e : event) : station :=
  match e with
  | Published devices =>
      with_shared
        {| discovered_devices :=
             snd (publish devices (discovered_devices (shared s)));
           device_health_data := device_health_data (shared s);
           recording_state := recording_state (shared s) |} s
  | Snapshot =>
      match devices_to_poll s with
      | [] => {| shared := shared s;
                 devices_to_poll := discovered_devices (shared s) |}
      | _ :: _ => s
      end
  | Probed outcome now =>
      match devices_to_poll s with
      | [] => s
      | (device_id, _) :: rest =>
          {| shared :=
               {| discovered_devices := discovered_devices (shared s);
                  device_health_data :=
                    poll_one outcome now device_id
                      (device_health_data (shared s));
                  recording_state := recording_state (shared s) |};
             devices_to_poll := rest |}
      end
  | Toggled device_id =>
      with_shared (snd (toggle_recording device_id (shared s))) s
  | Queried => s
  end.

Definition run (events : list event) (s : station) : station :=
  fold_left step events s.

(** A record as the poller writes it. *)
Definition polled (r : obj) : Prop :=
  exists status data t, r = health_record status data t.

(** The entry [get_devices] builds for a device without a health record. *)
Definition unknown_entry (item : pykey * device_info) : json :=
  JObj [("device_id", info_key (snd item));
        ("device_name", info_device_name (snd item));
        ("ip", JStr (info_ip (snd item)));
        ("url", JStr (info_url (snd item)));
        ("status", JStr "unknown");
        ("health", JNull);
        ("last_seen", JNum 0)].

(** Some device of the directory has a health record. *)
Definition listed_polled (g : globals) : bool :=
  existsb (fun item =>
             PyDict.mem pykey_eq_dec (fst item) (device_health_data g))
    (discovered_devices g).

(** Status and payload the poller records for what a request did. *)
Definition classify (outcome : http_outcome) : string * json :=
  match outcome with
  | Response status_code (Ok data) =>
      if status_code =? 200 then ("online", data) else ("error", JNull)
  | Response status_code (Raise _) =>
      if status_code =? 200 then ("offline", JNull) else ("error", JNull)
  | Failed _ => ("offline", JNull)
  end.

(** What holds of the station whatever the threads have done. *)
Definition invariant (s : station) : Prop :=
  recording_state (shared s) = None
  /\ NoDup (PyDict.keys (discovered_devices (shared s)))
  /\ NoDup (PyDict.keys (device_health_data (shared s)))
  /\ Forall (fun item => polled (snd item)) (device_health_data (shared s))
  /\ NoDup (PyDict.keys (devices_to_poll s)).

End Station.

(** ** scan_network.py: the local network *)

Module LocalNetwork.

(** A text is held as its UTF-8 bytes.  The blanks [str.split()] cuts at
    are, among the ASCII characters, the codes 9-13, 28-31 and 32. *)
Definition is_space (c : ascii) : bool :=
  let n := nat_of_ascii c in
  ((9 <=? n)%nat && (n <=? 13)%nat)
  || ((28 <=? n)%nat && (n <=? 32)%nat).

(** Beyond ASCII they are U+0085, U+00A0, U+1680, U+2000 to U+200A,
    U+2028, U+2029, U+202F, U+205F and U+3000.  [blank_width s] is the
    number of bytes of the blank that [s] starts with, 0 when it starts
    with none. *)
Definition blank_width (s : string) : nat :=
  match s with
  | EmptyString => 0
  | String c rest =>
      let n := nat_of_ascii c in
      if is_space c then 1
      else if (n =? 194)%nat then
        match rest with
        | String c2 _ =>
            let n2 := nat_of_ascii c2 in
            if (n2 =? 133)%nat || (n2 =? 160)%nat then 2 else 0
        | EmptyString => 0
        end
      else if (n =? 225)%nat || (n =? 226)%nat || (n =? 227)%nat then
        match rest with
        | String c2 (String c3 _) =>
            let n2 := nat_of_ascii c2 in
            let n3 := nat_of_ascii c3 in
            if (n =? 225)%nat then
              (if (n2 =? 154)%nat && (n3 =? 128)%nat then 3 else 0)
            else if (n =? 226)%nat then
              (if (n2 =? 128)%nat
                  && (((128 <=? n3)%nat && (n3 <=? 138)%nat)
                      || (n3 =? 168)%nat || (n3 =? 169)%nat
                      || (n3 =? 175)%nat)
               then 3
               else if (n2 =? 129)%nat && (n3 =? 159)%nat then 3 else 0)
            else
              (if (n2 =? 128)%nat && (n3 =? 128)%nat then 3 else 0)
        | _ => 0
        end
      else 0
  end%nat.

Definition is_empty (s : string) : bool :=
  match s with EmptyString => true | String _ _ => false end.

(** [s.split()]: the maximal runs of non-blank characters; [word] is the
    run being read, [skip] the bytes still to pass of a blank that takes
    more than one. *)
Fixpoint tokens (s : string) (word : string) (skip : nat) : list string :=
  match s with
  | EmptyString => if is_empty word then [] else [word]
  | String c rest =>
      match skip with
      | S more => tokens rest word more
      | O =>
          match blank_width s with
          | O => tokens rest (word ++ String c EmptyString) O
          | S more =>
              if is_empty word then tokens rest EmptyString more
              else word :: tokens rest EmptyString more
          end
      end
  end.

Definition split_blank (s : string) : list string :=
  tokens s EmptyString O.

(** An ASCII character that is not a blank. *)
Definition plain (c : ascii) : bool :=
  negb (is_space c) && (nat_of_ascii c <? 128)%nat.

(** [s.split(sep)] for a separator of one character: never empty. *)
Fixpoint fields (sep : ascii) (s : string) (field : string) : list string :=
  match s with
  | EmptyString => [field]
  | String c rest =>
      if Ascii.eqb c sep then field :: fields sep rest EmptyString
      else fields sep rest (field ++ String c EmptyString)
  end.

Definition split_on (sep : ascii) (s : string) : list string :=
  fields sep s EmptyString.

(** [sep.join(parts)] *)
Fixpoint join (sep : string) (parts : list string) : string :=
  match parts with
  | [] => EmptyString
  | [p] => p
  | p :: rest => p ++ sep ++ join sep rest
  end.

(** [needle in s] on strings. *)
Definition contains (needle s : string) : bool :=
  match index 0 needle s with Some _ => true | None => false end.

(** [l[i]] *)
Definition item {A : Type} (l : list A) (i : nat) : option A := nth_error l i.

(** The [for] loop over the lines of the output: [None] is the loop
    running to its end, [Some None] an [IndexError] raised inside it. *)
Fixpoint first_default (lines : list string) : option (option string) :=
  match lines with
  | [] => None
  | line :: rest =>
      if contains "default" line then
        match item (split_blank line) 2 with
        | None => Some None
        | Some gateway =>
            let network_parts := split_on "." gateway in
            Some (Some (join "." (firstn 3 network_parts) ++ ".0/24"))
        end
      else first_default rest
  end.

(** [get_local_network]; [ip_route] is the standard output of the
    [ip route] command, or the exception of running it. *)
Definition get_local_network (ip_route : result string) : string :=
  match ip_route with
  | Raise _ => "192.168.1.0/24"
  | Ok stdout =>
      match first_default (split_on "010" stdout) with
      | Some (Some network) => network
      | Some None | None => "192.168.1.0/24"
      end
  end.

(** No character of [s] satisfies [p]. *)
Fixpoint free_of (p : ascii -> bool) (s : string) : bool :=
  match s with
  | EmptyString => true
  | String c rest => negb (p c) && free_of p rest
  end.

End LocalNetwork.

(** ** discover_device.py and mdns_setup.py: announcements *)

Module Announce.

(** What [add_service] reads of the [ServiceInfo] that
    [zc.get_service_info] returns: the TXT properties (byte strings, a
    key may have no value), the packed IPv4 addresses, the port and the
    server name. *)
Record service_info : Type := {
  properties : list (string * option string);
  addresses : list (ascii * ascii * ascii * ascii);
  port : Z;
  server : string
}.

Definition digit (n : nat) : ascii := ascii_of_nat (48 + n).

(** Decimal digits of a byte. *)
Definition byte_decimal (c : ascii) : string :=
  let n := nat_of_ascii c in
  if (n <? 10)%nat then String (digit n) EmptyString
  else if (n <? 100)%nat
  then String (digit (n / 10)) (String (digit (n mod 10)) EmptyString)
  else String (digit (n / 100))
         (String (digit ((n / 10) mod 10))
            (String (digit (n mod 10)) EmptyString)).

(** [socket.inet_ntoa] *)
Definition inet_ntoa (packed : ascii * ascii * ascii * ascii) : string :=
  let '(a, b, c, d) := packed in
  byte_decimal a ++ "." ++ byte_decimal b ++ "." ++ byte_decimal c
  ++ "." ++ byte_decimal d.

(** [s.rstrip('.')] *)
Fixpoint rstrip_dot (s : string) : string :=
  match s with
  | EmptyString => EmptyString
  | String c rest =>
      match rstrip_dot rest with
      | EmptyString =>
          if Ascii.eqb c "." then EmptyString else String c EmptyString
      | String c' rest' => String c (String c' rest')
      end
  end.

Section Decoding.

(** A text is held as its UTF-8 bytes; [utf8_valid] says whether a byte
    string is the encoding of a text.  [b.decode('utf-8')] returns the
    text or raises [UnicodeDecodeError], a [ValueError]. *)
Variable utf8_valid : string -> bool.

Definition decode (b : string) : result string :=
  if utf8_valid b then Ok b else Raise ValueError.

(** [info.properties.get(key, default).decode('utf-8')]; a key without
    value holds [None], which has no [decode]. *)
Definition decode_property (info : service_info) (key default : string)
  : result string :=
  match PyDict.get_default string_dec key (Some default) (properties info) with
  | None => Raise AttributeError
  | Some b => decode b
  end.

(** [EweGoListener.add_service]: [self.devices] after the call, or the
    exception that leaves it (and [self.devices] as it was). *)
Definition add_service (info : option service_info) (name : string)
  (devices : list (string * Listener.announced))
  : result (list (string * Listener.announced)) :=
  match info with
  | None => Ok devices
  | Some info =>
      device_id <- decode_property info "device_id" "unknown" ;;
      service_name <- decode_property info "service" "Unknown" ;;
      version <- decode_property info "version" "?" ;;
      let ip_address :=
        match addresses info with
        | first :: _ => inet_ntoa first
        | [] => "unknown"
        end in
      Ok (PyDict.set string_dec name
            {| Listener.device_id := device_id;
               Listener.service_name := service_name;
               Listener.version := version;
               Listener.ip := ip_address;
               Listener.port := port info;
               Listener.hostname := rstrip_dot (server info) |}
            devices)
  end.

(** The callbacks the browser makes on the listener. *)
Inductive callback : Type :=
| Added (name : string) (info : option service_info)
| Removed (name : string)
| Updated (name : string).

Definition deliver (devices : list (string * Listener.announced))
  (c : callback) : list (string * Listener.announced) :=
  match c with
  | Added name info =>
      match add_service info name devices with
      | Ok devices' => devices'
      | Raise _ => devices
      end
  | Removed name => Listener.remove_service name devices
  | Updated _ => devices
  end.

(** [discover_devices]: a fresh listener, the callbacks made while the
    function sleeps, and the listener's store as the result. *)
Definition discover_devices (callbacks : list callback)
  : list (string * Listener.announced) :=
  fold_left deliver callbacks [].

(** The callback stores an entry: the service resolved and its three
    properties decode. *)
Definition stores (info : option service_info) : bool :=
  match info with
  | None => false
  | Some info =>
      match decode_property info "device_id" "unknown",
            decode_property info "service" "Unknown",
            decode_property info "version" "?" with
      | Ok _, Ok _, Ok _ => true
      | _, _, _ => false
      end
  end.

(** Whether [name] is bound after the callbacks, given whether it was
    before: the last callback for [name] that stores or removes
    decides. *)
Fixpoint bound_after (name : string) (callbacks : list callback)
  (bound : bool) : bool :=
  match callbacks with
  | [] => bound
  | Added n info :: rest =>
      bound_after name rest
        (if String.eqb n name && stores info then true else bound)
  | Removed n :: rest =>
      bound_after name rest (if String.eqb n name then false else bound)
  | Updated _ :: rest => bound_after name rest bound
  end.

End Decoding.

(** *** The advertising side, [EweGoMDNS] *)

Definition service_type : string := "_ewego._tcp.local.".

(** [self.service_name] *)
Definition service_name_of (device_id : string) : string :=
  device_id ++ "." ++ service_type.

(** The [ServiceInfo] that [start] registers; its text properties are
    sent as their UTF-8 bytes. *)
Definition advertised (device_id : string) (port : Z)
  (local_ip : ascii * ascii * ascii * ascii) : service_info :=
  {| properties := [("device_id", Some device_id);
                    ("service", Some "EweGo System Health");
                    ("version", Some "1.0");
                    ("path", Some "/");
                    ("api", Some "/api/health")];
     addresses := [local_ip];
     port := port;
     server := device_id ++ ".local." |}.

(** Every byte is below 128. *)
Definition ascii_only (s : string) : bool :=
  LocalNetwork.free_of (fun c => (128 <=? nat_of_ascii c)%nat) s.

End Announce.

(** * Properties *)

(** ** Dictionary facts *)

Module PyDictFacts.
Import PyDict.
Section Facts.
Context {K V : Type}.
Variable K_eq_dec : forall x y : K, {x = y} + {x <> y}.

Local Abbreviation get := (@get K V K_eq_dec).
Local Abbreviation set := (@set K V K_eq_dec).
Local Abbreviation del := (@del K V K_eq_dec).
Local Abbreviation count := (@count K V K_eq_dec).
Local Abbreviation keys := (@keys K V).

Lemma get_set_same k v d : get k (set k v d) = Some v.
Proof.
induction d as [|[k' v'] rest IH]; simpl.
- destruct (K_eq_dec k k); congruence.
- destruct (K_eq_dec k k') as [E|N]; simpl;
    destruct (K_eq_dec k k'); congruence.
Qed.

Lemma get_set_other k k' v d : k <> k' -> get k' (set k v d) = get k' d.
Proof.
intros Hne. induction d as [|[k0 v0] rest IH]; simpl.
- destruct (K_eq_dec k' k); congruence.
- destruct (K_eq_dec k k0) as [E|N]; simpl.
  + subst k0. destruct (K_eq_dec k' k); congruence.
  + destruct (K_eq_dec k' k0); congruence.
Qed.

Lemma in_keys_set k k' v d :
  In k' (keys (set k v d)) <-> k' = k \/ In k' (keys d).
Proof.
unfold PyDict.keys. induction d as [|[k0 v0] rest IH]; simpl.
- intuition congruence.
- destruct (K_eq_dec k k0) as [E|N]; simpl.
  + subst k0. intuition congruence.
  + rewrite IH. intuition congruence.
Qed.

Lemma NoDup_keys_set k v d : NoDup (keys d) -> NoDup (keys (set k v d)).
Proof.
induction d as [|[k0 v0] rest IH]; simpl; intros Hnd.
- constructor; [intros [] | constructor].
- inversion Hnd as [|? ? Hnotin Hrest]; subst.
  destruct (K_eq_dec k k0) as [E|N]; simpl.
  + constructor; assumption.
  + constructor.
    * intros Hin. apply (in_keys_set k k0 v rest) in Hin.
      destruct Hin as [Heq|Hin]; [congruence | contradiction].
    * apply IH; assumption.
Qed.

Lemma get_in_keys k d : get k d <> None <-> In k (keys d).
Proof.
unfold PyDict.keys. induction d as [|[k0 v0] rest IH]; simpl.
- intuition congruence.
- destruct (K_eq_dec k k0) as [E|N].
  + subst. split; [auto | congruence].
  + rewrite IH. intuition congruence.
Qed.

Lemma count_not_in k d : ~ In k (keys d) -> count k d = 0%nat.
Proof.
unfold PyDict.count, PyDict.keys.
induction d as [|[k0 v0] rest IH]; simpl; intros Hn.
- reflexivity.
- destruct (K_eq_dec k k0) as [E|N].
  + exfalso. apply Hn. left. congruence.
  + apply IH. intros Hin. apply Hn. right. assumption.
Qed.

(** Under key uniqueness a bound key has exactly one entry. *)
Lemma count_NoDup k v d :
  NoDup (keys d) -> get k d = Some v -> count k d = 1%nat.
Proof.
induction d as [|[k0 v0] rest IH]; simpl; intros Hnd Hget.
- discriminate.
- inversion Hnd as [|? ? Hnotin Hrest]; subst.
  unfold PyDict.count in *. simpl.
  destruct (K_eq_dec k k0) as [E|N].
  + subst k0. simpl. f_equal. apply count_not_in. assumption.
  + apply IH; assumption.
Qed.

Lemma get_del_same k d : NoDup (keys d) -> get k (del k d) = None.
Proof.
induction d as [|[k0 v0] rest IH]; simpl; intros Hnd.
- reflexivity.
- inversion Hnd as [|? ? Hnotin Hrest]; subst.
  destruct (K_eq_dec k k0) as [E|N]; simpl.
  + subst k0. destruct (get k rest) eqn:G; [|reflexivity].
    exfalso. apply Hnotin. apply get_in_keys. congruence.
  + destruct (K_eq_dec k k0); [contradiction|]. apply IH; assumption.
Qed.

Lemma get_del_other k k' d : k <> k' -> get k' (del k d) = get k' d.
Proof.
intros Hne. induction d as [|[k0 v0] rest IH]; simpl.
- reflexivity.
- destruct (K_eq_dec k k0) as [E|N]; simpl.
  + subst k0. destruct (K_eq_dec k' k); congruence.
  + destruct (K_eq_dec k' k0); congruence.
Qed.

Lemma length_del k d :
  In k (keys d) -> S (List.length (del k d)) = List.length d.
Proof.
unfold PyDict.keys. induction d as [|[k0 v0] rest IH]; simpl; intros Hin.
- contradiction.
- destruct (K_eq_dec k k0) as [E|N]; simpl.
  + reflexivity.
  + f_equal. apply IH. destruct Hin; congruence.
Qed.

End Facts.
End PyDictFacts.

(** ** The scanner *)

Module ScannerFacts.
Import Scanner Shape.

(** A probe returns a device record exactly for the recognised
    responses. *)
Lemma check_device_recognised net a :
  (exists r, check_device net a = Some r)
  <-> recognised (net (health_url a)) = true.
Proof.
unfold check_device, check_device_try, recognised.
destruct (net (health_url a)) as [code body|e].
2:{ split; [intros [r H]; discriminate | discriminate]. }
destruct (code =? 200); simpl.
2:{ split; [intros [r H]; discriminate |].
    destruct body as [[]|]; discriminate. }
destruct body as [data|e]; simpl.
2:{ split; [intros [r H]; discriminate | discriminate]. }
destruct data as [|b|z|s|l|data]; simpl;
  try (split; [intros [r H]; discriminate | discriminate]).
- destruct (index 0 "device_id" s); simpl;
    [|destruct (index 0 "device_name" s); simpl];
    (split; [intros [r H]; discriminate | discriminate]).
- match goal with |- context [existsb ?f l] => destruct (existsb f l) end;
    simpl;
    [|match goal with |- context [existsb ?f l] => destruct (existsb f l) end;
      simpl];
    (split; [intros [r H]; discriminate | discriminate]).
- assert (Hid :
    (has_identity <- (if obj_mem "device_id" data then Ok true
                      else Ok (obj_mem "device_name" data)) ;;
     Ok has_identity)
    = Ok (obj_mem "device_id" data || obj_mem "device_name" data))
    by (destruct (obj_mem "device_id" data); reflexivity).
  destruct (obj_mem "device_id" data || obj_mem "device_name" data) eqn:Hident.
  2:{ destruct (obj_mem "device_id" data); simpl in *;
        [discriminate|]. rewrite Hident. simpl.
      split; [intros [r H]; discriminate | discriminate]. }
  assert (Hgo : forall k : bool -> result (option device),
    (has_identity <- (if obj_mem "device_id" data then Ok true
                      else Ok (obj_mem "device_name" data)) ;;
     k has_identity) = k true).
  { intros k. destruct (obj_mem "device_id" data); simpl in *;
      [reflexivity | rewrite Hident; reflexivity]. }
  rewrite Hgo. simpl.
  destruct (object_or_absent "battery" data) eqn:Hb; simpl.
  2:{ unfold object_or_absent, obj_get_default, PyDict.get_default, obj_get in *.
      destruct (PyDict.get string_dec "battery" data) as [[| | | | |o]|];
        try discriminate; simpl;
        (split; [intros [r H]; discriminate | discriminate]). }
  destruct (object_or_absent "gps" data) eqn:Hg; simpl.
  2:{ unfold object_or_absent, obj_get_default, PyDict.get_default, obj_get in *.
      destruct (PyDict.get string_dec "battery" data) as [[| | | | |o]|];
        try discriminate; simpl;
        destruct (PyDict.get string_dec "gps" data) as [[| | | | |o']|];
        try discriminate; simpl;
        (split; [intros [r H]; discriminate | discriminate]). }
  unfold object_or_absent, obj_get_default, PyDict.get_default, obj_get in *.
  destruct (PyDict.get string_dec "battery" data) as [[| | | | |o]|];
    try discriminate; simpl;
    destruct (PyDict.get string_dec "gps" data) as [[| | | | |o']|];
    try discriminate; simpl;
    (split; [reflexivity | intros _; eexists; reflexivity]).
Qed.

Lemma recognised_inv o :
  recognised o = true ->
  exists data,
    o = Response 200 (Ok (JObj data))
    /\ (obj_mem "device_id" data || obj_mem "device_name" data) = true
    /\ object_or_absent "battery" data = true
    /\ object_or_absent "gps" data = true.
Proof.
unfold recognised. destruct o as [code [[| | | | |data]|]|]; try discriminate.
intros H. apply andb_prop in H as [H Hg]. apply andb_prop in H as [H Hb].
apply andb_prop in H as [Hc Hi]. apply Z.eqb_eq in Hc. subst code.
exists data. auto.
Qed.

(** What the record of a recognised response holds. *)
Lemma check_device_obj net a data :
  net (health_url a) = Response 200 (Ok (JObj data)) ->
  (obj_mem "device_id" data || obj_mem "device_name" data) = true ->
  object_or_absent "battery" data = true ->
  object_or_absent "gps" data = true ->
  exists r,
    check_device net a = Some r
    /\ ip r = a
    /\ device_id r = obj_get_default "device_id" (JStr "unknown") data
    /\ device_name r
       = obj_get_default "device_name" (JStr "Unknown Device") data.
Proof.
intros Hnet Hident Hb Hg.
unfold check_device, check_device_try. rewrite Hnet. simpl.
assert (Hgo : forall k : bool -> result (option device),
  (has_identity <- (if obj_mem "device_id" data then Ok true
                    else Ok (obj_mem "device_name" data)) ;;
   k has_identity) = k true).
{ intros k. destruct (obj_mem "device_id" data); simpl in *;
    [reflexivity | rewrite Hident; reflexivity]. }
rewrite Hgo. simpl.
unfold object_or_absent, obj_get_default, PyDict.get_default, obj_get in *.
destruct (PyDict.get string_dec "battery" data) as [[| | | | |o]|];
  try discriminate; simpl;
  destruct (PyDict.get string_dec "gps" data) as [[| | | | |o']|];
  try discriminate; simpl;
  (eexists; split; [reflexivity | simpl; auto]).
Qed.





End ScannerFacts.

(** ** The dashboard *)

Module DashboardFacts.
Import Scanner Dashboard Shape.

Lemma with_key_same v : with_key (info_key v) v = v.
Proof. destruct v; reflexivity. Qed.

Lemma dev_store_keys k k' v discovered :
  In k' (PyDict.keys (dev_store k v discovered))
  <-> k' = k \/ In k' (PyDict.keys discovered).
Proof.
unfold dev_store. destruct (dev_get k discovered);
  apply PyDictFacts.in_keys_set.
Qed.

Lemma dev_store_NoDup k v discovered :
  NoDup (PyDict.keys discovered) ->
  NoDup (PyDict.keys (dev_store k v discovered)).
Proof.
intros Hnd. unfold dev_store. destruct (dev_get k discovered);
  apply PyDictFacts.NoDup_keys_set; exact Hnd.
Qed.

Lemma dev_store_get_other k k' v discovered :
  k <> k' ->
  dev_get k' (dev_store k v discovered) = dev_get k' discovered.
Proof.
intros Hne. unfold dev_store. destruct (dev_get k discovered);
  apply PyDictFacts.get_set_other; exact Hne.
Qed.

(** Storing under [k] binds [k] to the value, with the key object of the
    entry that was there, or the given one when there was none. *)
Lemma dev_store_get_same k v discovered :
  dev_get k (dev_store k v discovered)
  = Some (match dev_get k discovered with
          | Some old => with_key (info_key old) v
          | None => v
          end).
Proof.
unfold dev_store. destruct (dev_get k discovered);
  apply PyDictFacts.get_set_same.
Qed.

Lemma store_devices_NoDup devices discovered :
  NoDup (PyDict.keys discovered) ->
  NoDup (PyDict.keys (snd (store_devices devices discovered))).
Proof.
revert discovered. induction devices as [|d rest IH]; intros discovered Hnd.
- exact Hnd.
- simpl. destruct (to_key (device_id d)) as [k|e]; [|exact Hnd].
  apply IH. apply dev_store_NoDup. exact Hnd.
Qed.

(** Candidates stored after the last one for [k] leave its entry alone. *)
Lemma store_devices_get_other devices discovered k :
  (forall d, In d devices -> to_key (device_id d) <> Ok k) ->
  dev_get k (snd (store_devices devices discovered)) = dev_get k discovered.
Proof.
revert discovered. induction devices as [|d rest IH]; intros discovered Hno.
- reflexivity.
- simpl. destruct (to_key (device_id d)) as [k'|e] eqn:Hk; [|reflexivity].
  rewrite IH by (intros d' Hd'; apply Hno; right; exact Hd').
  apply dev_store_get_other.
  intros ->. apply (Hno d); [left; reflexivity | exact Hk].
Qed.

Lemma store_devices_app pre post discovered :
  Forall hashable pre ->
  store_devices (pre ++ post)%list discovered
  = store_devices post (snd (store_devices pre discovered)).
Proof.
revert discovered. induction pre as [|d rest IH]; intros discovered Hall.
- reflexivity.
- inversion Hall as [|? ? [k Hk] Hrest]; subst. simpl. rewrite Hk.
  apply IH. exact Hrest.
Qed.

Lemma store_devices_ok devices discovered :
  Forall hashable devices ->
  fst (store_devices devices discovered) = Ok tt.
Proof.
revert discovered. induction devices as [|d rest IH]; intros discovered Hall.
- reflexivity.
- inversion Hall as [|? ? [k Hk] Hrest]; subst. simpl. rewrite Hk.
  apply IH. exact Hrest.
Qed.

(** The last candidate stored for a key is the one whose value the
    directory keeps, in a single entry; the key object is that of the
    first candidate stored for the key. *)
Lemma store_devices_last pre d post discovered k :
  Forall hashable pre ->
  to_key (device_id d) = Ok k ->
  (forall d', In d' post -> to_key (device_id d') <> Ok k) ->
  NoDup (PyDict.keys discovered) ->
  let after := snd (store_devices (pre ++ d :: post)%list discovered) in
  (exists key, dev_get k after = Some (with_key key (entry_of d)))
  /\ dev_count k after = 1%nat.
Proof.
intros Hpre Hk Hpost Hnd after.
assert (Hget : exists key, dev_get k after = Some (with_key key (entry_of d))).
{ unfold after. rewrite store_devices_app by exact Hpre.
  simpl. rewrite Hk. rewrite store_devices_get_other by exact Hpost.
  rewrite dev_store_get_same.
  destruct (dev_get k (snd (store_devices pre discovered))) as [old|].
  - exists (info_key old). reflexivity.
  - exists (device_id d). reflexivity. }
split; [exact Hget|].
destruct Hget as (key & Hget).
apply (PyDictFacts.count_NoDup pykey_eq_dec k _ _ (store_devices_NoDup _ _ Hnd)
         Hget).
Qed.

(** When no earlier candidate and no earlier entry has the key, the entry
    is the candidate's own. *)
Lemma store_devices_fresh pre d post discovered k :
  Forall hashable pre ->
  to_key (device_id d) = Ok k ->
  (forall d', In d' pre -> to_key (device_id d') <> Ok k) ->
  (forall d', In d' post -> to_key (device_id d') <> Ok k) ->
  dev_get k discovered = None ->
  dev_get k (snd (store_devices (pre ++ d :: post)%list discovered))
  = Some (entry_of d).
Proof.
intros Hall Hk Hpre Hpost Hnone.
rewrite store_devices_app by exact Hall.
simpl. rewrite Hk. rewrite store_devices_get_other by exact Hpost.
rewrite dev_store_get_same.
rewrite store_devices_get_other by exact Hpre. rewrite Hnone. reflexivity.
Qed.

(** Keys after the storing loop, when every identifier can be a key. *)
Lemma store_devices_keys devices discovered k :
  Forall hashable devices ->
  In k (PyDict.keys (snd (store_devices devices discovered)))
  <-> In k (PyDict.keys discovered)
      \/ exists d, In d devices /\ to_key (device_id d) = Ok k.
Proof.
revert discovered. induction devices as [|d rest IH]; intros discovered Hall.
- simpl. split; [auto | intros [H|(d & [] & _)]; exact H].
- inversion Hall as [|? ? [k' Hk'] Hrest]; subst. simpl. rewrite Hk'.
  rewrite IH by exact Hrest.
  rewrite dev_store_keys.
  split.
  + intros [[->|H]|(d' & Hin & Hd')].
    * right. exists d. split; [left; reflexivity | exact Hk'].
    * left. exact H.
    * right. exists d'. split; [right; exact Hin | exact Hd'].
  + intros [H|(d' & [->|Hin] & Hd')].
    * left. right. exact H.
    * left. left. congruence.
    * right. exists d'. split; assumption.
Qed.

(** The storing loop stores the candidates before the first one that
    cannot be a key, and no other. *)
Lemma stored_hashable devices : Forall hashable (stored devices).
Proof.
induction devices as [|d rest IH]; simpl; [constructor|].
destruct (to_key (device_id d)) as [k|e] eqn:Hk; constructor;
  [exists k; exact Hk | exact IH].
Qed.

Lemma stored_all devices : Forall hashable devices -> stored devices = devices.
Proof.
induction 1 as [|d rest [k Hk] _ IH]; simpl; [reflexivity|].
rewrite Hk, IH. reflexivity.
Qed.

Lemma stored_incl devices d : In d (stored devices) -> In d devices.
Proof.
induction devices as [|d0 rest IH]; simpl; [auto|].
destruct (to_key (device_id d0)); simpl; [|contradiction].
intros [H|H]; [left; exact H | right; apply IH; exact H].
Qed.

Lemma store_devices_stored devices discovered :
  snd (store_devices devices discovered)
  = snd (store_devices (stored devices) discovered).
Proof.
revert discovered. induction devices as [|d rest IH]; intros discovered.
- reflexivity.
- simpl. destruct (to_key (device_id d)) as [k|e] eqn:Hk; simpl.
  + rewrite Hk. apply IH.
  + reflexivity.
Qed.

(** *** Polling *)

(** Whatever the request did, the loop body leaves a record for the
    polled device, built by [health_record] at the time of the write. *)
Lemma poll_one_writes outcome now k health :
  exists status data,
    health_get k (poll_one outcome now k health)
    = Some (health_record status data now).
Proof.
unfold poll_one, poll_try.
destruct outcome as [code [data|e]|e]; simpl.
- destruct (code =? 200); simpl; do 2 eexists;
    apply PyDictFacts.get_set_same.
- destruct (code =? 200); simpl; do 2 eexists;
    apply PyDictFacts.get_set_same.
- do 2 eexists. apply PyDictFacts.get_set_same.
Qed.

Lemma poll_one_other outcome now k k' health :
  k <> k' ->
  health_get k' (poll_one outcome now k health) = health_get k' health.
Proof.
intros Hne. unfold poll_one, poll_try.
destruct outcome as [code [data|e]|e]; simpl;
  try destruct (code =? 200); simpl;
  apply PyDictFacts.get_set_other; exact Hne.
Qed.

(** Records of devices outside the snapshot are not touched. *)
Lemma poll_loop_other net snapshot clock health k :
  ~ In k (PyDict.keys snapshot) ->
  health_get k (snd (poll_loop net snapshot clock health))
  = health_get k health.
Proof.
revert clock health.
induction snapshot as [|[k0 info] rest IH]; intros clock health Hnot.
- reflexivity.
- simpl. destruct (net (info_url info ++ "/api/health")) as [outcome elapsed].
  rewrite IH by (intros Hin; apply Hnot; right; exact Hin).
  apply poll_one_other. intros ->. apply Hnot. left. reflexivity.
Qed.

(** The loop ends when every request has returned: the clock has
    advanced by the time all of them blocked. *)
Lemma poll_loop_clock net snapshot clock health :
  fst (poll_loop net snapshot clock health) = clock + blocked net snapshot.
Proof.
revert clock health.
induction snapshot as [|[k0 info] rest IH]; intros clock health.
- simpl. unfold blocked. simpl. lia.
- simpl. destruct (net (info_url info ++ "/api/health")) as [outcome elapsed]
    eqn:Hnet.
  rewrite IH. unfold blocked. simpl. rewrite Hnet. simpl. lia.
Qed.

(** After the loop every polled device has a record written by the
    poller, with a [last_updated] and no [last_seen] key. *)
Lemma poll_loop_polled net snapshot clock health k :
  In k (PyDict.keys snapshot) ->
  exists status data t,
    health_get k (snd (poll_loop net snapshot clock health))
    = Some (health_record status data t).
Proof.
revert clock health.
induction snapshot as [|[k0 info] rest IH]; intros clock health Hin.
- contradiction.
- simpl. destruct (net (info_url info ++ "/api/health")) as [outcome elapsed].
  destruct (in_dec pykey_eq_dec k (PyDict.keys rest)) as [Hr|Hr].
  + apply IH. exact Hr.
  + destruct Hin as [Heq|Hin]; [|contradiction]. simpl in Heq. subst k0.
    rewrite poll_loop_other by exact Hr.
    destruct (poll_one_writes outcome (clock + elapsed) k health)
      as (status & data & H).
    exists status, data, (clock + elapsed). exact H.
Qed.

End DashboardFacts.

(** * The claims *)

Import Scanner Dashboard Shape Examples.

(** ** Fleet query *)

(** Before any poll the query answers: the default record has the
    [last_seen] key the handler reads. *)
Example get_devices_before_any_poll :
  get_devices one_device
  = Ok (JObj [("devices",
               JArr [JObj [("device_id", JStr "pi-01");
                           ("device_name", JStr "RPi CM4 - Sensor System");
                           ("ip", JStr "10.0.0.5");
                           ("url", JStr "http://10.0.0.5:5000");
                           ("status", JStr "unknown");
                           ("health", JNull);
                           ("last_seen", JNum 0)]]);
              ("count", JNum 1)]).
Proof. reflexivity. Qed.

(** C1 (fails on the code).  Once the poller has completed a cycle over a
    directory that holds at least one device, [get_devices] does not return
    a snapshot: the record the poller wrote has the key [last_updated],
    the handler reads [last_seen], and the [KeyError] leaves the handler,
    whatever the probes returned. *)
Theorem get_devices_raises_once_polled
  (net : string -> http_outcome * Z) (clock : Z) (k : pykey)
  (info : device_info) (rest : list (pykey * device_info))
  (health : list (pykey * obj)) (flag : option bool) :
  get_devices
    (snd (poll_device_health net clock
            {| discovered_devices := (k, info) :: rest;
               device_health_data := health;
               recording_state := flag |}))
  = Raise (KeyError "last_seen").
Proof.
unfold poll_device_health. simpl discovered_devices. simpl device_health_data.
destruct (poll_loop net ((k, info) :: rest) clock health) as [clock' health']
  eqn:Hloop.
simpl. unfold get_devices. simpl.
destruct (DashboardFacts.poll_loop_polled net ((k, info) :: rest) clock health k)
  as (status & data & t & Hrec); [left; reflexivity|].
rewrite Hloop in Hrec. simpl in Hrec.
unfold PyDict.get_default. unfold health_get in Hrec. rewrite Hrec.
reflexivity.
Qed.

(** ** Health classification *)

(** C4.  One poll of one device leaves, under the device's identifier, a
    record with: status [online] and the decoded body as payload for a 200
    response whose body decodes; status [error] and no payload for any
    other status code; status [offline] and no payload when the request
    raised (host unreachable, timeout) or the body of a 200 response did
    not decode.  In particular a timed-out probe is never recorded as
    online. *)
Theorem poll_one_classification
  (device_id : pykey) (now : Z) (health : list (pykey * obj)) :
  (forall data,
      health_get device_id
        (poll_one (Response 200 (Ok data)) now device_id health)
      = Some [("status", JStr "online"); ("data", data);
              ("last_updated", JNum now)])
  /\ (forall status_code body,
         status_code <> 200 ->
         health_get device_id
           (poll_one (Response status_code body) now device_id health)
         = Some [("status", JStr "error"); ("data", JNull);
                 ("last_updated", JNum now)])
  /\ (forall e,
         health_get device_id (poll_one (Failed e) now device_id health)
         = Some [("status", JStr "offline"); ("data", JNull);
                 ("last_updated", JNum now)])
  /\ (forall e,
         health_get device_id
           (poll_one (Response 200 (Raise e)) now device_id health)
         = Some [("status", JStr "offline"); ("data", JNull);
                 ("last_updated", JNum now)])
  /\ (forall r,
         health_get device_id (poll_one (Failed Timeout) now device_id health)
         = Some r ->
         subscript r "status" = Ok (JStr "offline")
         /\ subscript r "data" = Ok JNull).
Proof.
unfold poll_one, poll_try. split; [|split; [|split; [|split]]].
- intros data. simpl. apply PyDictFacts.get_set_same.
- intros code body Hne. apply Z.eqb_neq in Hne. rewrite Hne. simpl.
  apply PyDictFacts.get_set_same.
- intros e. apply PyDictFacts.get_set_same.
- intros e. simpl. apply PyDictFacts.get_set_same.
- intros r H. unfold health_get, health_set in H.
  rewrite PyDictFacts.get_set_same in H. injection H as <-.
  split; reflexivity.
Qed.

Lemma poll_one_classification_witness :
  500 <> 200
  /\ health_get (KStr "pi-01")
       (poll_one (Response 500 (Ok JNull)) 7 (KStr "pi-01") [])
     = Some [("status", JStr "error"); ("data", JNull);
             ("last_updated", JNum 7)]
  /\ subscript [("status", JStr "offline"); ("data", JNull);
                ("last_updated", JNum 7)] "status"
     = Ok (JStr "offline").
Proof.
split; [lia|]. split.
- apply (proj1 (proj2 (poll_one_classification (KStr "pi-01") 7 []))). lia.
- apply (proj2 (proj2 (proj2 (proj2
           (poll_one_classification (KStr "pi-01") 7 []))))).
  reflexivity.
Defined.

(** ** Discovery publish *)

(** C2 (as stated, fails).  A device known before a discovery cycle whose
    scan finds nothing is gone from the directory after it. *)
Lemma publish_evicts_absent_devices :
  In (KStr "pi-01") (PyDict.keys (discovered_devices one_device))
  /\ scan_network id_order silent ["10.0.0.5"] 50 = Ok []
  /\ discovered_devices
       (scan_for_devices id_order silent (Ok ["10.0.0.5"]) one_device) = []
  /\ ~ In (KStr "pi-01")
         (PyDict.keys
            (discovered_devices
               (scan_for_devices id_order silent (Ok ["10.0.0.5"])
                  one_device))).
Proof.
repeat split; try reflexivity.
- left. reflexivity.
- intros [].
Qed.

(** C2 (amended).  A discovery publish replaces the directory: it clears
    it before storing the candidates of the new scan.  Afterwards every
    device_id that no candidate of the new scan reports is absent, even if
    it was present before (a scan that found nothing empties the
    directory); the device_ids present are those of the candidates the
    publish stored, which are all the candidates when every device_id is
    hashable.  The cycle leaves the health records as they were. *)
Theorem publish_keys_are_candidates
  (devices : list device) (discovered : list (pykey * device_info)) :
  (forall k,
      In k (PyDict.keys (snd (publish devices discovered)))
      <-> exists d, In d (stored devices) /\ to_key (device_id d) = Ok k)
  /\ (Forall hashable devices ->
      stored devices = devices /\ fst (publish devices discovered) = Ok tt)
  /\ (forall k,
         In k (PyDict.keys discovered) ->
         (forall d, In d devices -> to_key (device_id d) <> Ok k) ->
         ~ In k (PyDict.keys (snd (publish devices discovered))))
  /\ (forall completion net network g,
        device_health_data (scan_for_devices completion net network g)
        = device_health_data g).
Proof.
assert (Hkeys : forall k,
  In k (PyDict.keys (snd (publish devices discovered)))
  <-> exists d, In d (stored devices) /\ to_key (device_id d) = Ok k).
{ intros k. unfold publish.
  rewrite DashboardFacts.store_devices_stored.
  rewrite DashboardFacts.store_devices_keys
    by apply DashboardFacts.stored_hashable.
  unfold PyDict.clear. simpl. tauto. }
split; [exact Hkeys|]. split; [|split].
- intros Hall. split.
  + apply DashboardFacts.stored_all. exact Hall.
  + apply DashboardFacts.store_devices_ok. exact Hall.
- intros k _ Hno Hin. apply Hkeys in Hin as (d & Hd & Hk).
  apply (Hno d); [apply DashboardFacts.stored_incl; exact Hd | exact Hk].
- intros completion net network g. unfold scan_for_devices.
  destruct (hosts <- network ;; scan_network completion net hosts 50);
    reflexivity.
Qed.

Lemma publish_keys_are_candidates_witness :
  In (KStr "pi-01") (PyDict.keys (discovered_devices one_device))
  /\ (forall d,
         In d [cam "10.0.0.7" (JStr "pi-07")] ->
         to_key (device_id d) <> Ok (KStr "pi-01"))
  /\ ~ In (KStr "pi-01")
         (PyDict.keys
            (snd (publish [cam "10.0.0.7" (JStr "pi-07")]
                    (discovered_devices one_device))))
  /\ Forall hashable [cam "10.0.0.7" (JStr "pi-07")]
  /\ stored [cam "10.0.0.7" (JStr "pi-07")] = [cam "10.0.0.7" (JStr "pi-07")].
Proof.
assert (Hin : In (KStr "pi-01") (PyDict.keys (discovered_devices one_device)))
  by (left; reflexivity).
assert (Hno : forall d,
          In d [cam "10.0.0.7" (JStr "pi-07")] ->
          to_key (device_id d) <> Ok (KStr "pi-01")).
{ intros d [<-|[]]. discriminate. }
assert (H : Forall hashable [cam "10.0.0.7" (JStr "pi-07")]).
{ constructor; [|constructor]. exists (KStr "pi-07"). reflexivity. }
split; [exact Hin|]. split; [exact Hno|]. split.
- exact (proj1 (proj2 (proj2 (publish_keys_are_candidates
                                [cam "10.0.0.7" (JStr "pi-07")]
                                (discovered_devices one_device))))
           (KStr "pi-01") Hin Hno).
- split; [exact H|].
  exact (proj1 (proj1 (proj2 (publish_keys_are_candidates
                                [cam "10.0.0.7" (JStr "pi-07")]
                                (discovered_devices one_device))) H)).
Defined.




(** ** The active scanner *)





(** C8 (fails on the code).  An address that answers 200 with an object
    carrying [device_id] is left out of the scan when its [battery] field
    is a number: the lookup of [level] in it raises inside the bare
    [except], and the probe returns [None] although the identity fields
    are there. *)
Theorem scan_omits_identity_bearing :
  flat_battery (health_url "10.0.0.5")
  = Response 200 (Ok (JObj [("device_id", JStr "pi-01");
                            ("battery", JNum 72)]))
  /\ identity_bearing (flat_battery (health_url "10.0.0.5")) = true
  /\ check_device flat_battery "10.0.0.5" = None
  /\ scan_network id_order flat_battery ["10.0.0.5"] 50 = Ok [].
Proof. repeat split. Qed.



(** C10 (fails on the code).  A responder whose body has a
    [device_name], no [device_id] and a numeric [battery] is not recorded
    under ["unknown"]: it is not recorded at all, for the same reason as
    in C8, and a discovery cycle that finds only this device leaves the
    directory empty. *)
Theorem anonymous_device_not_recorded :
  nameless_flat (health_url "10.0.0.5")
  = Response 200 (Ok (JObj [("device_name", JStr "cam");
                            ("battery", JNum 72)]))
  /\ check_device nameless_flat "10.0.0.5" = None
  /\ discovered_devices
       (scan_for_devices id_order nameless_flat (Ok ["10.0.0.5"]) one_device)
     = [].
Proof. repeat split. Qed.

(** X19.  A probed device that answers 200 with an object that has a
    [device_name] key, no [device_id] key, and [battery] and [gps] fields
    that are objects when present, is recorded under the identifier
    ["unknown"].  When a publish stores several candidates with that
    identifier (every candidate before the last of them has a hashable
    device_id), it leaves a single directory entry keyed ["unknown"],
    the entry of the last of them in the list. *)
Theorem anonymous_devices_collapse :
  (forall net a data,
      net (health_url a) = Response 200 (Ok (JObj data)) ->
      obj_mem "device_id" data = false ->
      obj_mem "device_name" data = true ->
      object_or_absent "battery" data = true ->
      object_or_absent "gps" data = true ->
      exists r,
        check_device net a = Some r
        /\ Scanner.ip r = a
        /\ device_id r = JStr "unknown")
  /\ (forall pre d post discovered,
         Forall hashable pre ->
         device_id d = JStr "unknown" ->
         (forall d', In d' post -> device_id d' <> JStr "unknown") ->
         let after := snd (publish (pre ++ d :: post)%list discovered) in
         (exists e,
             dev_get (KStr "unknown") after = Some e
             /\ info_ip e = Scanner.ip d
             /\ info_url e = "http://" ++ Scanner.ip d ++ ":5000"
             /\ info_device_name e = device_name d)
         /\ dev_count (KStr "unknown") after = 1%nat).
Proof.
split.
- intros net a data Hnet Hid Hname Hb Hg.
  destruct (ScannerFacts.check_device_obj net a data Hnet)
    as (r & Hr & Hip & Hdid & _);
    [rewrite Hid, Hname; reflexivity | exact Hb | exact Hg |].
  exists r. split; [exact Hr|]. split; [exact Hip|].
  rewrite Hdid. unfold obj_get_default, PyDict.get_default.
  unfold obj_mem, PyDict.mem in Hid.
  destruct (PyDict.get string_dec "device_id" data); [discriminate|reflexivity].
- intros pre d post discovered Hpre Hd Hpost after.
  destruct (DashboardFacts.store_devices_last pre d post
              (PyDict.clear discovered) (KStr "unknown") Hpre)
    as [(key & Hget) Hcount].
  + rewrite Hd. reflexivity.
  + intros d' Hin Hk. apply (Hpost d' Hin).
    destruct (device_id d'); simpl in Hk; try discriminate; congruence.
  + constructor.
  + split; [|exact Hcount].
    eexists. split; [exact Hget|]. repeat split.
Qed.

Lemma anonymous_devices_collapse_witness :
  (exists r,
      check_device nameless "10.0.0.6" = Some r
      /\ Scanner.ip r = "10.0.0.6"
      /\ device_id r = JStr "unknown")
  /\ (exists e,
         dev_get (KStr "unknown")
           (snd (publish [cam "10.0.0.5" (JStr "unknown");
                          cam "10.0.0.6" (JStr "unknown")] []))
         = Some e
         /\ info_ip e = "10.0.0.6")
  /\ dev_count (KStr "unknown")
       (snd (publish [cam "10.0.0.5" (JStr "unknown");
                      cam "10.0.0.6" (JStr "unknown")] []))
     = 1%nat.
Proof.
split.
- apply (proj1 anonymous_devices_collapse nameless "10.0.0.6"
           [("device_name", JStr "RPi CM4 - Sensor System")]);
    reflexivity.
- assert (H : Forall hashable [cam "10.0.0.5" (JStr "unknown")]).
  { constructor; [|constructor]. exists (KStr "unknown"). reflexivity. }
  destruct (proj2 anonymous_devices_collapse
              [cam "10.0.0.5" (JStr "unknown")]
              (cam "10.0.0.6" (JStr "unknown")) [] [] H eq_refl)
    as ((e & Hget & Hip & _) & Hcount).
  + intros d' [].
  + split; [|exact Hcount]. exists e. split; [exact Hget | exact Hip].
Defined.

(** ** The poll cycle *)

Lemma poll_loop_app net pre post clock health :
  poll_loop net (pre ++ post)%list clock health
  = poll_loop net post (fst (poll_loop net pre clock health))
      (snd (poll_loop net pre clock health)).
Proof.
revert clock health. induction pre as [|[k info] rest IH]; intros clock health.
- reflexivity.
- simpl. destruct (net (info_url info ++ "/api/health")) as [outcome elapsed].
  apply IH.
Qed.

(** C3 (as stated, fails).  With the same answer from the second device,
    its health record is written at time 1 when the first device answers
    at once, and at time 4 when the probe of the first device runs into
    its timeout: the slow probe delays the other device's write, and the
    end of the cycle. *)
Lemma slow_probe_delays_other_write :
  prompt "http://10.0.0.6:5000/api/health"
  = stalled "http://10.0.0.6:5000/api/health"
  /\ health_get (KStr "pi-02")
       (device_health_data (snd (poll_device_health prompt 0 two_devices)))
     = Some [("status", JStr "online"); ("data", body02);
             ("last_updated", JNum 1)]
  /\ health_get (KStr "pi-02")
       (device_health_data (snd (poll_device_health stalled 0 two_devices)))
     = Some [("status", JStr "online"); ("data", body02);
             ("last_updated", JNum 4)]
  /\ fst (poll_device_health prompt 0 two_devices) = 3
  /\ fst (poll_device_health stalled 0 two_devices) = 6.
Proof. repeat split. Qed.

(** C3 (amended).  Within one poll cycle the probes are issued one after
    another, in the order of the snapshot: the health record of a device
    is written when its own probe has returned or failed, which is after
    the probes of all devices before it in the snapshot have done so; the
    [last_updated] it records is the start of the cycle plus the time
    those probes and its own blocked.  The cycle ends, 2 seconds of sleep
    later, only after every probe has finished. *)
Theorem poll_writes_in_sequence
  (net : string -> http_outcome * Z) (clock : Z) (g : globals)
  (pre post : list (pykey * device_info)) (k : pykey) (info : device_info) :
  discovered_devices g = (pre ++ (k, info) :: post)%list ->
  ~ In k (PyDict.keys post) ->
  (exists r,
      health_get k (device_health_data (snd (poll_device_health net clock g)))
      = Some r
      /\ subscript r "last_updated"
         = Ok (JNum (clock + blocked net pre
                     + snd (net (info_url info ++ "/api/health")))))
  /\ fst (poll_device_health net clock g)
     = clock + blocked net (discovered_devices g) + 2.
Proof.
intros Hsnap Hpost. unfold poll_device_health.
destruct (poll_loop net (discovered_devices g) clock (device_health_data g))
  as [clock' health'] eqn:Hloop.
simpl. split.
- assert (Hh : health' = snd (poll_loop net (discovered_devices g) clock
                                (device_health_data g)))
    by (rewrite Hloop; reflexivity).
  rewrite Hh, Hsnap, poll_loop_app. simpl.
  destruct (net (info_url info ++ "/api/health")) as [outcome elapsed].
  rewrite DashboardFacts.poll_loop_other by exact Hpost.
  rewrite DashboardFacts.poll_loop_clock. simpl.
  destruct (DashboardFacts.poll_one_writes outcome
              (clock + blocked net pre + elapsed) k
              (snd (poll_loop net pre clock (device_health_data g))))
    as (status & data & Hw).
  eexists. split; [exact Hw | reflexivity].
- assert (Hc : clock' = fst (poll_loop net (discovered_devices g) clock
                               (device_health_data g)))
    by (rewrite Hloop; reflexivity).
  rewrite Hc, DashboardFacts.poll_loop_clock. reflexivity.
Qed.

Lemma poll_writes_in_sequence_witness :
  discovered_devices two_devices
  = ([(KStr "pi-01", pi01)] ++ (KStr "pi-02", pi02) :: [])%list
  /\ ~ In (KStr "pi-02") (PyDict.keys (@nil (pykey * device_info)))
  /\ (exists r,
         health_get (KStr "pi-02")
           (device_health_data (snd (poll_device_health stalled 0 two_devices)))
         = Some r
         /\ subscript r "last_updated" = Ok (JNum 4))
  /\ fst (poll_device_health stalled 0 two_devices) = 6.
Proof.
assert (Hs : discovered_devices two_devices
             = ([(KStr "pi-01", pi01)] ++ (KStr "pi-02", pi02) :: [])%list)
  by reflexivity.
assert (Hn : ~ In (KStr "pi-02") (PyDict.keys (@nil (pykey * device_info))))
  by (intros []).
split; [exact Hs|]. split; [exact Hn|].
exact (poll_writes_in_sequence stalled 0 two_devices
         [(KStr "pi-01", pi01)] [] (KStr "pi-02") pi02 Hs Hn).
Defined.

(** ** The command route *)

(** C7 (as stated, fails).  The handler never reads the directory.  In the
    state the module starts in it raises on the unbound flag, for a device
    the directory knows.  With the flag bound, it answers the same for a
    device at one address, for the same device at another address, and for
    an identifier the directory does not hold. *)
Lemma toggle_recording_without_lookup :
  fst (toggle_recording "pi-01" one_device)
  = Raise (NameError "recording_state")
  /\ fst (toggle_recording "pi-01" (with_flag false [(KStr "pi-01", pi01)]))
     = Ok (JObj [("recording", JBool true);
                 ("message", JStr "Recording started")])
  /\ fst (toggle_recording "pi-01"
            (with_flag false [(KStr "pi-01", pi01_moved)]))
     = fst (toggle_recording "pi-01" (with_flag false [(KStr "pi-01", pi01)]))
  /\ fst (toggle_recording "ghost" (with_flag false []))
     = fst (toggle_recording "pi-01" (with_flag false [(KStr "pi-01", pi01)])).
Proof. repeat split. Qed.

(** C7 (amended).  The toggle-recording handler does not resolve the
    device_id: its response depends only on the process-wide recording
    flag, not on the device_id nor on the Fleet Directory, and it leaves
    the directory and the health records as they were. *)
Theorem toggle_recording_ignores_directory
  (id1 id2 : string) (g1 g2 : globals) :
  recording_state g1 = recording_state g2 ->
  fst (toggle_recording id1 g1) = fst (toggle_recording id2 g2)
  /\ recording_state (snd (toggle_recording id1 g1))
     = recording_state (snd (toggle_recording id2 g2))
  /\ discovered_devices (snd (toggle_recording id1 g1))
     = discovered_devices g1
  /\ device_health_data (snd (toggle_recording id1 g1))
     = device_health_data g1.
Proof.
intros Hflag. unfold toggle_recording.
destruct (recording_state g1) as [b|] eqn:H1; rewrite <- Hflag; simpl;
  repeat split; try reflexivity; congruence.
Qed.

Lemma toggle_recording_ignores_directory_witness :
  recording_state (with_flag true [(KStr "pi-01", pi01)])
  = recording_state (with_flag true [])
  /\ fst (toggle_recording "pi-01" (with_flag true [(KStr "pi-01", pi01)]))
     = fst (toggle_recording "ghost" (with_flag true [])).
Proof.
split; [reflexivity|].
exact (proj1 (toggle_recording_ignores_directory "pi-01" "ghost"
                (with_flag true [(KStr "pi-01", pi01)]) (with_flag true [])
                eq_refl)).
Defined.

(** ** The announcement listener *)

(** C9 (as stated, fails).  A "removed" event for a known service deletes
    its entry from the listener's store on the spot. *)
Lemma remove_service_evicts :
  PyDict.get string_dec "pi-01._ewego._tcp.local."
    [("pi-01._ewego._tcp.local.", announced_pi01)]
  = Some announced_pi01
  /\ Listener.remove_service "pi-01._ewego._tcp.local."
       [("pi-01._ewego._tcp.local.", announced_pi01)]
     = [].
Proof. repeat split. Qed.

(** C9 (amended).  On a "removed" event the listener deletes the entry of
    that service name from its device store at once: the name is unbound
    afterwards, a known name leaves the store one entry shorter, and the
    entries of all other names are unchanged. *)
Theorem remove_service_deletes
  (name : string) (devices : list (string * Listener.announced)) :
  NoDup (PyDict.keys devices) ->
  PyDict.get string_dec name (Listener.remove_service name devices) = None
  /\ (In name (PyDict.keys devices) ->
      S (List.length (Listener.remove_service name devices))
      = List.length devices)
  /\ (forall other,
         other <> name ->
         PyDict.get string_dec other (Listener.remove_service name devices)
         = PyDict.get string_dec other devices)
  /\ (~ In name (PyDict.keys devices) ->
      Listener.remove_service name devices = devices).
Proof.
intros Hnd. unfold Listener.remove_service, PyDict.mem.
destruct (PyDict.get string_dec name devices) as [v|] eqn:Hget.
- split; [|split; [|split]].
  + apply PyDictFacts.get_del_same. exact Hnd.
  + apply PyDictFacts.length_del.
  + intros other Hne. apply PyDictFacts.get_del_other. congruence.
  + intros Hnot. exfalso. apply Hnot.
    apply (PyDictFacts.get_in_keys string_dec). congruence.
- split; [exact Hget|]. split; [|split; reflexivity].
  intros Hin. apply (PyDictFacts.get_in_keys string_dec) in Hin.
  congruence.
Qed.

Lemma remove_service_deletes_witness :
  NoDup (PyDict.keys [("pi-01._ewego._tcp.local.", announced_pi01)])
  /\ PyDict.get string_dec "pi-01._ewego._tcp.local."
       (Listener.remove_service "pi-01._ewego._tcp.local."
          [("pi-01._ewego._tcp.local.", announced_pi01)])
     = None.
Proof.
assert (Hn : NoDup (PyDict.keys
                      [("pi-01._ewego._tcp.local.", announced_pi01)]))
  by (constructor; [intros [] | constructor]).
split; [exact Hn|].
exact (proj1 (remove_service_deletes "pi-01._ewego._tcp.local."
                [("pi-01._ewego._tcp.local.", announced_pi01)] Hn)).
Defined.

(** * Further properties of the code *)

(** ** The dashboard under any interleaving *)

Module StationFacts.
Import Station.

Lemma Forall_set {K V : Type} (dec : forall x y : K, {x = y} + {x <> y})
  (P : V -> Prop) k v (d : list (K * V)) :
  P v ->
  Forall (fun item => P (snd item)) d ->
  Forall (fun item => P (snd item)) (PyDict.set dec k v d).
Proof.
intros Hv. induction d as [|[k0 v0] rest IH]; simpl; intros Hall.
- constructor; [exact Hv | constructor].
- inversion Hall as [|? ? H0 Hrest]; subst.
  destruct (dec k k0); constructor; auto.
Qed.

Lemma get_Forall {K V : Type} (dec : forall x y : K, {x = y} + {x <> y})
  (P : V -> Prop) k v (d : list (K * V)) :
  Forall (fun item => P (snd item)) d ->
  PyDict.get dec k d = Some v -> P v.
Proof.
induction d as [|[k0 v0] rest IH]; simpl; intros Hall Hget.
- discriminate.
- inversion Hall as [|? ? H0 Hrest]; subst.
  destruct (dec k k0); [injection Hget as <-; exact H0 | auto].
Qed.

Lemma poll_one_polled outcome now k health :
  Forall (fun item => polled (snd item)) health ->
  Forall (fun item => polled (snd item)) (poll_one outcome now k health).
Proof.
intros Hall. unfold poll_one, poll_try.
destruct outcome as [code [data|e]|e]; simpl;
  try destruct (code =? 200); simpl;
  apply Forall_set; try exact Hall; do 3 eexists; reflexivity.
Qed.

Lemma poll_one_NoDup outcome now k health :
  NoDup (PyDict.keys health) ->
  NoDup (PyDict.keys (poll_one outcome now k health)).
Proof.
intros Hnd. unfold poll_one, poll_try.
destruct outcome as [code [data|e]|e]; simpl;
  try destruct (code =? 200); simpl;
  apply PyDictFacts.NoDup_keys_set; exact Hnd.
Qed.

Lemma poll_one_keys outcome now k k' health :
  In k' (PyDict.keys (poll_one outcome now k health))
  <-> k' = k \/ In k' (PyDict.keys health).
Proof.
unfold poll_one, poll_try.
destruct outcome as [code [data|e]|e]; simpl;
  try destruct (code =? 200); simpl;
  apply PyDictFacts.in_keys_set.
Qed.

Lemma step_invariant s e : invariant s -> invariant (step s e).
Proof.
intros (Hflag & Hdev & Hhealth & Hpolled & Hsnap).
destruct e as [devices| |outcome now|id|]; simpl.
- repeat split; simpl; try assumption.
  unfold publish. apply DashboardFacts.store_devices_NoDup. constructor.
- destruct (devices_to_poll s) eqn:Hp; repeat split; simpl;
    try assumption; rewrite Hp; assumption.
- destruct (devices_to_poll s) as [|[k info] rest] eqn:Hp.
  { repeat split; try assumption. rewrite Hp. exact Hsnap. }
  repeat split; simpl; try assumption.
  + apply poll_one_NoDup. exact Hhealth.
  + apply poll_one_polled. exact Hpolled.
  + simpl in Hsnap. inversion Hsnap; assumption.
- unfold toggle_recording. rewrite Hflag. repeat split; assumption.
- repeat split; assumption.
Qed.

Lemma run_invariant events s : invariant s -> invariant (run events s).
Proof.
revert s. induction events as [|e rest IH]; intros s Hinv; simpl.
- exact Hinv.
- apply IH. apply step_invariant. exact Hinv.
Qed.

Lemma started_invariant : invariant started.
Proof. repeat split; simpl; constructor. Qed.

(** The loop of [get_devices] over a store of poller records: it passes
    the devices without a record and raises at the first one that has
    one. *)
Lemma get_devices_loop_outcome items health acc :
  Forall (fun item => polled (snd item)) health ->
  get_devices_loop items health acc
  = if existsb (fun item => PyDict.mem pykey_eq_dec (fst item) health) items
    then Raise (KeyError "last_seen")
    else Ok (acc ++ map unknown_entry items)%list.
Proof.
intros Hpolled. revert acc.
induction items as [|[k info] rest IH]; intros acc; simpl.
- rewrite app_nil_r. reflexivity.
- unfold PyDict.mem, PyDict.get_default.
  destruct (PyDict.get pykey_eq_dec k health) as [r|] eqn:Hget; simpl.
  + destruct (get_Forall pykey_eq_dec polled k r health Hpolled Hget)
      as (status & data & t & ->).
    reflexivity.
  + rewrite IH. unfold PyDict.mem.
    destruct (existsb _ rest); [reflexivity|].
    rewrite <- app_assoc. reflexivity.
Qed.

End StationFacts.

Import Station.

(** X1.  In every state the dashboard can reach, whatever the discovery
    scans returned, whatever the probes did and however often the routes
    were called, [toggle_recording] raises [NameError]: nothing in the
    module ever binds [recording_state], and the failing call changes
    nothing. *)
Theorem toggle_recording_always_raises
  (events : list event) (device_id : string) :
  toggle_recording device_id (shared (run events started))
  = (Raise (NameError "recording_state"), shared (run events started)).
Proof.
destruct (StationFacts.run_invariant events started
            StationFacts.started_invariant) as (Hflag & _).
unfold toggle_recording. rewrite Hflag. reflexivity.
Qed.

(** X2.  In every reachable state both global dictionaries hold each
    device_id at most once, and so does the snapshot the poller iterates
    over. *)
Theorem dictionaries_unique_in_every_state (events : list event) :
  NoDup (PyDict.keys (discovered_devices (shared (run events started))))
  /\ NoDup (PyDict.keys (device_health_data (shared (run events started))))
  /\ NoDup (PyDict.keys (devices_to_poll (run events started))).
Proof.
destruct (StationFacts.run_invariant events started
            StationFacts.started_invariant)
  as (_ & Hdev & Hhealth & _ & Hsnap).
repeat split; assumption.
Qed.

(** X3.  In every reachable state the fleet query has one of two
    outcomes: if some device of the directory has a health record it
    raises [KeyError('last_seen')]; otherwise it returns one entry per
    directory entry, in directory order, each with status [unknown], no
    payload and [last_seen] 0, and [count] is the size of the directory. *)
Theorem get_devices_in_every_state (events : list event) :
  let g := shared (run events started) in
  get_devices g
  = if listed_polled g then Raise (KeyError "last_seen")
    else Ok (JObj [("devices", JArr (map unknown_entry (discovered_devices g)));
                   ("count",
                    JNum (Z.of_nat (List.length (discovered_devices g))))]).
Proof.
intros g.
destruct (StationFacts.run_invariant events started
            StationFacts.started_invariant) as (_ & _ & _ & Hpolled & _).
fold g in Hpolled. unfold get_devices, listed_polled.
rewrite (StationFacts.get_devices_loop_outcome _ _ [] Hpolled).
destruct (existsb _ (discovered_devices g)); [reflexivity|].
simpl. rewrite length_map. reflexivity.
Qed.

(** X4.  A health record is never deleted: a device_id that has a record
    keeps one through every later publish, poll write and route call,
    also after discovery has dropped the device from the directory. *)
Theorem health_records_never_deleted
  (events : list event) (s : station) (k : pykey) :
  In k (PyDict.keys (device_health_data (shared s))) ->
  In k (PyDict.keys (device_health_data (shared (run events s)))).
Proof.
revert s. induction events as [|e rest IH]; intros s Hin; simpl.
- exact Hin.
- apply IH. destruct e as [devices| |outcome now|id|]; simpl.
  + exact Hin.
  + destruct (devices_to_poll s); exact Hin.
  + destruct (devices_to_poll s) as [|[k0 info] rest0]; [exact Hin|].
    simpl. apply StationFacts.poll_one_keys. right. exact Hin.
  + unfold toggle_recording.
    destruct (recording_state (shared s)); exact Hin.
  + exact Hin.
Qed.

Lemma health_records_never_deleted_witness :
  In (KStr "pi-01")
    (PyDict.keys
       (device_health_data
          (shared (run [Snapshot; Probed (Failed Timeout) 3]
                     (with_shared one_device started)))))
  /\ In (KStr "pi-01")
       (PyDict.keys
          (device_health_data
             (shared (run [Published []; Queried]
                        (run [Snapshot; Probed (Failed Timeout) 3]
                           (with_shared one_device started)))))).
Proof.
assert (H : In (KStr "pi-01")
              (PyDict.keys
                 (device_health_data
                    (shared (run [Snapshot; Probed (Failed Timeout) 3]
                               (with_shared one_device started))))))
  by (left; reflexivity).
split; [exact H|].
exact (health_records_never_deleted [Published []; Queried] _ _ H).
Defined.

(** ** One poll cycle *)

Module PollFacts.
Import Station.

Lemma poll_one_classify outcome now k health :
  health_get k (poll_one outcome now k health)
  = Some (health_record (fst (classify outcome)) (snd (classify outcome)) now).
Proof.
unfold poll_one, poll_try, classify.
destruct outcome as [code [data|e]|e]; simpl;
  try destruct (code =? 200); simpl;
  apply PyDictFacts.get_set_same.
Qed.

Lemma poll_loop_keys net snapshot clock health k :
  In k (PyDict.keys (snd (poll_loop net snapshot clock health)))
  <-> In k (PyDict.keys health) \/ In k (PyDict.keys snapshot).
Proof.
revert clock health.
induction snapshot as [|[k0 info] rest IH]; intros clock health; simpl.
- tauto.
- destruct (net (info_url info ++ "/api/health")) as [outcome elapsed].
  rewrite IH, StationFacts.poll_one_keys. intuition congruence.
Qed.

End PollFacts.

(** X5.  After a poll cycle the record of each device of the directory
    is decided by its own probe alone: its [status] and [data] are the
    classification of what its request did (200 with a body that decodes:
    [online] and the body; another status code: [error]; an exception or a
    body that does not decode: [offline]), its [last_updated] is the time
    its request returned; what the store held for the device before has no
    part in it. *)
Theorem poll_cycle_classifies
  (net : string -> http_outcome * Z) (clock : Z) (g : globals)
  (pre post : list (pykey * device_info)) (k : pykey) (info : device_info) :
  discovered_devices g = (pre ++ (k, info) :: post)%list ->
  ~ In k (PyDict.keys post) ->
  health_get k (device_health_data (snd (poll_device_health net clock g)))
  = Some [("status",
           JStr (fst (classify (fst (net (info_url info ++ "/api/health"))))));
          ("data",
           snd (classify (fst (net (info_url info ++ "/api/health")))));
          ("last_updated",
           JNum (clock + blocked net pre
                 + snd (net (info_url info ++ "/api/health"))))].
Proof.
intros Hsnap Hpost. unfold poll_device_health.
destruct (poll_loop net (discovered_devices g) clock (device_health_data g))
  as [clock' health'] eqn:Hloop.
simpl.
assert (Hh : health' = snd (poll_loop net (discovered_devices g) clock
                              (device_health_data g)))
  by (rewrite Hloop; reflexivity).
rewrite Hh, Hsnap, poll_loop_app. simpl.
destruct (net (info_url info ++ "/api/health")) as [outcome elapsed].
rewrite DashboardFacts.poll_loop_other by exact Hpost.
rewrite DashboardFacts.poll_loop_clock. simpl.
apply PollFacts.poll_one_classify.
Qed.

Lemma poll_cycle_classifies_witness :
  discovered_devices two_devices
  = ([] ++ (KStr "pi-01", pi01) :: [(KStr "pi-02", pi02)])%list
  /\ ~ In (KStr "pi-01") (PyDict.keys [(KStr "pi-02", pi02)])
  /\ health_get (KStr "pi-01")
       (device_health_data (snd (poll_device_health stalled 10 two_devices)))
     = Some [("status", JStr "offline"); ("data", JNull);
             ("last_updated", JNum 13)].
Proof.
assert (Hs : discovered_devices two_devices
             = ([] ++ (KStr "pi-01", pi01) :: [(KStr "pi-02", pi02)])%list)
  by reflexivity.
assert (Hn : ~ In (KStr "pi-01") (PyDict.keys [(KStr "pi-02", pi02)])).
{ intros [H|[]]. discriminate H. }
split; [exact Hs|]. split; [exact Hn|].
exact (poll_cycle_classifies stalled 10 two_devices [] [(KStr "pi-02", pi02)]
         (KStr "pi-01") pi01 Hs Hn).
Defined.

(** X6.  A poll cycle adds a health record for every device of its
    snapshot and removes none: afterwards the store's identifiers are the
    old ones together with the directory's, the records of devices outside
    the directory are as before, and the directory itself is unchanged. *)
Theorem poll_cycle_store
  (net : string -> http_outcome * Z) (clock : Z) (g : globals) :
  let g' := snd (poll_device_health net clock g) in
  (forall k,
      In k (PyDict.keys (device_health_data g'))
      <-> In k (PyDict.keys (device_health_data g))
          \/ In k (PyDict.keys (discovered_devices g)))
  /\ (forall k,
         ~ In k (PyDict.keys (discovered_devices g)) ->
         health_get k (device_health_data g')
         = health_get k (device_health_data g))
  /\ discovered_devices g' = discovered_devices g.
Proof.
unfold poll_device_health.
destruct (poll_loop net (discovered_devices g) clock (device_health_data g))
  as [clock' health'] eqn:Hloop.
assert (Hh : health' = snd (poll_loop net (discovered_devices g) clock
                              (device_health_data g)))
  by (rewrite Hloop; reflexivity).
simpl. rewrite Hh. split; [|split].
- intros k. apply PollFacts.poll_loop_keys.
- intros k Hnot. apply DashboardFacts.poll_loop_other. exact Hnot.
- reflexivity.
Qed.

Lemma poll_cycle_store_witness :
  ~ In (KStr "pi-09") (PyDict.keys (discovered_devices two_devices))
  /\ health_get (KStr "pi-09")
       (device_health_data (snd (poll_device_health stalled 0 two_devices)))
     = health_get (KStr "pi-09") (device_health_data two_devices).
Proof.
assert (Hn : ~ In (KStr "pi-09")
                (PyDict.keys (discovered_devices two_devices))).
{ intros [H|[H|[]]]; discriminate H. }
split; [exact Hn|].
exact (proj1 (proj2 (poll_cycle_store stalled 0 two_devices))
         (KStr "pi-09") Hn).
Defined.

(** ** Discovery: scan and publish together *)

Module DiscoveryFacts.
Import ScanShape.

Lemma in_set_inv {K V : Type} (dec : forall x y : K, {x = y} + {x <> y})
  k v k' v' (d : list (K * V)) :
  In (k', v') (PyDict.set dec k v d) -> (k', v') = (k, v) \/ In (k', v') d.
Proof.
induction d as [|[k0 v0] rest IH]; simpl.
- intros [H|[]]. left. congruence.
- destruct (dec k k0) as [E|N]; simpl.
  + intros [H|H]; [left; congruence | right; right; exact H].
  + intros [H|H]; [right; left; exact H|].
    destruct (IH H) as [H'|H']; [left; exact H' | right; right; exact H'].
Qed.

(** Every entry the storing loop leaves was there before or holds the
    value of a candidate, under that candidate's key. *)
Lemma store_devices_entries devices discovered k v :
  In (k, v) (snd (store_devices devices discovered)) ->
  In (k, v) discovered
  \/ exists d key,
       In d devices /\ to_key (device_id d) = Ok k
       /\ v = with_key key (entry_of d).
Proof.
revert discovered. induction devices as [|d rest IH]; intros discovered Hin.
- left. exact Hin.
- simpl in Hin. destruct (to_key (device_id d)) as [k0|e] eqn:Hk.
  + destruct (IH _ Hin) as [H|(d' & key & Hd' & Hk' & Hv)].
    * unfold dev_store in H.
      destruct (dev_get k0 discovered) as [old|];
        apply in_set_inv in H as [H|H].
      -- right. exists d, (info_key old). injection H as -> ->.
         split; [left; reflexivity | split; [exact Hk | reflexivity]].
      -- left. exact H.
      -- right. exists d, (device_id d). injection H as -> ->.
         split; [left; reflexivity | split; [exact Hk | reflexivity]].
      -- left. exact H.
    * right. exists d', key.
      split; [right; exact Hd' | split; assumption].
  + left. exact Hin.
Qed.

Lemma get_in {K V : Type} (dec : forall x y : K, {x = y} + {x <> y})
  k v (d : list (K * V)) : PyDict.get dec k d = Some v -> In (k, v) d.
Proof.
induction d as [|[k0 v0] rest IH]; simpl; [discriminate|].
destruct (dec k k0) as [E|N].
- intros H. injection H as <-. left. congruence.
- intros H. right. apply IH. exact H.
Qed.




(** With unique identifiers the directory the storing loop builds from
    nothing binds [k] to the entry of the candidate that reported [k]. *)
Lemma store_devices_get_iff devices k v :
  Forall hashable devices ->
  NoDup (map (fun d => to_key (device_id d)) devices) ->
  dev_get k (snd (store_devices devices [])) = Some v
  <-> exists d, In d devices /\ to_key (device_id d) = Ok k /\ v = entry_of d.
Proof.
intros Hall Hnd.
assert (Hfresh : forall d,
          In d devices -> to_key (device_id d) = Ok k ->
          dev_get k (snd (store_devices devices [])) = Some (entry_of d)).
{ intros d Hin Hk.
  apply in_split in Hin as (pre & post & ->).
  apply Forall_app in Hall as [Hpre _].
  rewrite map_app in Hnd. simpl in Hnd.
  apply NoDup_remove_2 in Hnd.
  apply (DashboardFacts.store_devices_fresh pre d post [] k Hpre Hk);
    [| |reflexivity];
    intros d' Hd' Hk'; apply Hnd; apply in_or_app; [left|right];
    rewrite Hk, <- Hk';
    apply (in_map (fun d => to_key (device_id d))); exact Hd'. }
split.
- intros Hget. pose proof Hget as Hin. apply get_in in Hin.
  apply store_devices_entries in Hin as [[]|(d & key & Hd & Hk & _)].
  exists d. split; [exact Hd|]. split; [exact Hk|].
  rewrite (Hfresh d Hd Hk) in Hget. congruence.
- intros (d & Hin & Hk & ->). apply Hfresh; assumption.
Qed.

End DiscoveryFacts.

(** X7.  A candidate whose device_id is an array or an object cannot be a
    dictionary key: the publish raises [TypeError] at it.  The directory
    is then left holding exactly the candidates that came before it in the
    list; the ones after it are not stored, and the devices of the earlier
    cycle are gone. *)
Theorem publish_stops_at_unhashable
  (pre post : list device) (bad : device)
  (discovered : list (pykey * device_info)) :
  Forall hashable pre ->
  ~ hashable bad ->
  publish (pre ++ bad :: post)%list discovered
  = (Raise TypeError, snd (publish pre discovered))
  /\ forall k,
       In k (PyDict.keys (snd (publish (pre ++ bad :: post)%list discovered)))
       <-> exists d, In d pre /\ to_key (device_id d) = Ok k.
Proof.
intros Hpre Hbad.
assert (Heq : publish (pre ++ bad :: post)%list discovered
              = (Raise TypeError, snd (publish pre discovered))).
{ unfold publish. rewrite DashboardFacts.store_devices_app by exact Hpre.
  simpl. destruct (device_id bad) eqn:Hid; simpl; try reflexivity;
    exfalso; apply Hbad; unfold hashable; rewrite Hid; simpl; eauto. }
split; [exact Heq|].
intros k. rewrite Heq. simpl. unfold publish.
rewrite DashboardFacts.store_devices_keys by exact Hpre.
unfold PyDict.clear. simpl. tauto.
Qed.

Lemma publish_stops_at_unhashable_witness :
  Forall hashable [cam "10.0.0.5" (JStr "pi-05")]
  /\ ~ hashable (cam "10.0.0.6" (JArr [JStr "pi-06"]))
  /\ publish [cam "10.0.0.5" (JStr "pi-05");
              cam "10.0.0.6" (JArr [JStr "pi-06"]);
              cam "10.0.0.7" (JStr "pi-07")]
       (discovered_devices one_device)
     = (Raise TypeError,
        snd (publish [cam "10.0.0.5" (JStr "pi-05")]
               (discovered_devices one_device))).
Proof.
assert (Hp : Forall hashable [cam "10.0.0.5" (JStr "pi-05")]).
{ constructor; [|constructor]. exists (KStr "pi-05"). reflexivity. }
assert (Hb : ~ hashable (cam "10.0.0.6" (JArr [JStr "pi-06"]))).
{ intros [k Hk]. discriminate Hk. }
split; [exact Hp|]. split; [exact Hb|].
exact (proj1 (publish_stops_at_unhashable
                [cam "10.0.0.5" (JStr "pi-05")]
                [cam "10.0.0.7" (JStr "pi-07")]
                (cam "10.0.0.6" (JArr [JStr "pi-06"]))
                (discovered_devices one_device) Hp Hb)).
Defined.





(** X10.  When the candidates of a scan carry pairwise different
    device_ids, the directory a publish builds from them binds the same
    entries whatever the order of the list (and whatever the directory
    held before): the completion order of the probes only matters when
    identifiers collide. *)
Theorem publish_order_irrelevant
  (l1 l2 : list device) (d1 d2 : list (pykey * device_info)) (k : pykey) :
  Permutation l1 l2 ->
  Forall hashable l1 ->
  NoDup (map (fun d => to_key (device_id d)) l1) ->
  dev_get k (snd (publish l1 d1)) = dev_get k (snd (publish l2 d2)).
Proof.
intros Hperm Hall Hnd.
assert (Hall2 : Forall hashable l2).
{ apply Forall_forall. intros d Hd.
  apply (proj1 (Forall_forall _ _) Hall).
  apply (Permutation_in _ (Permutation_sym Hperm)). exact Hd. }
assert (Hnd2 : NoDup (map (fun d => to_key (device_id d)) l2)).
{ apply (Permutation_NoDup (Permutation_map _ Hperm)). exact Hnd. }
unfold publish, PyDict.clear.
destruct (dev_get k (snd (store_devices l1 []))) as [v|] eqn:G1.
- apply (DiscoveryFacts.store_devices_get_iff l1 k v Hall Hnd) in G1
    as (d & Hd & Hk & ->).
  symmetry.
  apply (DiscoveryFacts.store_devices_get_iff l2 k _ Hall2 Hnd2).
  exists d. split; [|split; [exact Hk | reflexivity]].
  apply (Permutation_in _ Hperm). exact Hd.
- destruct (dev_get k (snd (store_devices l2 []))) as [v|] eqn:G2;
    [|reflexivity].
  apply (DiscoveryFacts.store_devices_get_iff l2 k v Hall2 Hnd2) in G2
    as (d & Hd & Hk & ->).
  assert (G : dev_get k (snd (store_devices l1 [])) = Some (entry_of d)).
  { apply (DiscoveryFacts.store_devices_get_iff l1 k _ Hall Hnd).
    exists d. split; [|split; [exact Hk | reflexivity]].
    apply (Permutation_in _ (Permutation_sym Hperm)). exact Hd. }
  congruence.
Qed.

Lemma publish_order_irrelevant_witness :
  Permutation
    [cam "10.0.0.5" (JStr "pi-05"); cam "10.0.0.6" (JStr "pi-06")]
    [cam "10.0.0.6" (JStr "pi-06"); cam "10.0.0.5" (JStr "pi-05")]
  /\ dev_get (KStr "pi-05")
       (snd (publish
               [cam "10.0.0.5" (JStr "pi-05"); cam "10.0.0.6" (JStr "pi-06")]
               []))
     = dev_get (KStr "pi-05")
         (snd (publish
                 [cam "10.0.0.6" (JStr "pi-06"); cam "10.0.0.5" (JStr "pi-05")]
                 (discovered_devices one_device))).
Proof.
assert (Hp : Permutation
               [cam "10.0.0.5" (JStr "pi-05"); cam "10.0.0.6" (JStr "pi-06")]
               [cam "10.0.0.6" (JStr "pi-06"); cam "10.0.0.5" (JStr "pi-05")])
  by apply perm_swap.
assert (Hh : Forall hashable
               [cam "10.0.0.5" (JStr "pi-05"); cam "10.0.0.6" (JStr "pi-06")]).
{ constructor; [eexists; reflexivity|].
  constructor; [eexists; reflexivity | constructor]. }
assert (Hn : NoDup (map (fun d => to_key (device_id d))
                      [cam "10.0.0.5" (JStr "pi-05");
                       cam "10.0.0.6" (JStr "pi-06")])).
{ constructor; [|constructor; [intros [] | constructor]].
  intros [H|[]]. discriminate H. }
split; [exact Hp|].
exact (publish_order_irrelevant _ _ [] (discovered_devices one_device)
         (KStr "pi-05") Hp Hh Hn).
Defined.

(** X11.  A probe whose body decodes to anything but an object yields no
    device, also when the membership test lets it through (a string that
    contains the text [device_id], an array that has it as an element):
    the lookup that follows raises and the bare [except] returns [None]. *)
Theorem check_device_needs_object
  (net : string -> http_outcome) (a : string) (status_code : Z)
  (body : json) :
  net (health_url a) = Response status_code (Ok body) ->
  (forall data, body <> JObj data) ->
  check_device net a = None.
Proof.
intros Hnet Hbody.
destruct (check_device net a) as [r|] eqn:Hr; [|reflexivity].
assert (Hrec : recognised (net (health_url a)) = true)
  by (apply ScannerFacts.check_device_recognised; eauto).
apply ScannerFacts.recognised_inv in Hrec as (data & Hd & _).
rewrite Hnet in Hd. injection Hd as _ Hd. exfalso. apply (Hbody data Hd).
Qed.

Lemma check_device_needs_object_witness :
  Scanner.py_in "device_id" (JStr "my device_id is pi-01") = Ok true
  /\ check_device
       (fun _ => Response 200 (Ok (JStr "my device_id is pi-01")))
       "10.0.0.5"
     = None.
Proof.
split; [reflexivity|].
apply (check_device_needs_object _ "10.0.0.5" 200
         (JStr "my device_id is pi-01")); [reflexivity|].
intros data H. discriminate H.
Defined.

(** ** The local network *)

Module LocalNetworkFacts.
Import LocalNetwork.

Lemma app_assoc_s (a b c : string) : (a ++ b) ++ c = a ++ b ++ c.
Proof.
induction a as [|ch a IH]; simpl; [reflexivity | rewrite IH; reflexivity].
Qed.

Lemma app_empty_r (a : string) : a ++ "" = a.
Proof.
induction a as [|ch a IH]; simpl; [reflexivity | rewrite IH; reflexivity].
Qed.

Lemma free_of_app p (a b : string) :
  free_of p (a ++ b) = free_of p a && free_of p b.
Proof.
induction a as [|ch a IH]; simpl; [reflexivity|].
rewrite IH, andb_assoc. reflexivity.
Qed.

Lemma is_empty_app_cons (a : string) c (b : string) :
  is_empty (a ++ String c b) = false.
Proof. destruct a; reflexivity. Qed.

(** No blank starts at an ASCII character that is not a blank. *)
Lemma blank_width_plain c rest :
  plain c = true -> blank_width (String c rest) = 0%nat.
Proof.
destruct c as [[] [] [] [] [] [] [] []]; intros H;
  try (vm_compute in H; discriminate H); reflexivity.
Qed.

(** Reading a run of plain characters extends the current word. *)
Lemma tokens_word (w s word : string) :
  free_of (fun ch => negb (plain ch)) w = true ->
  tokens (w ++ s) word 0 = tokens s (word ++ w) 0.
Proof.
revert word. induction w as [|c w IH]; intros word Hfree.
- simpl. rewrite app_empty_r. reflexivity.
- simpl in Hfree. apply andb_prop in Hfree as [Hc Hw].
  rewrite negb_involutive in Hc.
  change ((String c w) ++ s) with (String c (w ++ s)).
  cbn [tokens]. rewrite (blank_width_plain c (w ++ s) Hc).
  rewrite IH by exact Hw. rewrite app_assoc_s. reflexivity.
Qed.

(** Reading a run of characters other than the separator extends the
    current field. *)
Lemma fields_word sep (w s field : string) :
  free_of (fun c => Ascii.eqb c sep) w = true ->
  fields sep (w ++ s) field = fields sep s (field ++ w).
Proof.
revert field. induction w as [|c w IH]; intros field Hfree; simpl.
- rewrite app_empty_r. reflexivity.
- simpl in Hfree. apply andb_prop in Hfree as [Hc Hw].
  apply negb_true_iff in Hc. rewrite Hc.
  rewrite IH by exact Hw. rewrite app_assoc_s. reflexivity.
Qed.

Lemma first_default_skip before rest :
  Forall (fun line => contains "default" line = false) before ->
  first_default (before ++ rest) = first_default rest.
Proof.
induction 1 as [|line before Hline _ IH]; simpl.
- reflexivity.
- rewrite Hline. exact IH.
Qed.

End LocalNetworkFacts.

Import LocalNetwork.

(** X12.  [get_local_network] falls back to [192.168.1.0/24] when the
    [ip route] command cannot be run and when no line of its output
    contains the word [default]. *)
Theorem get_local_network_fallback (ip_route : result string) :
  (forall stdout,
      ip_route = Ok stdout ->
      Forall (fun line => contains "default" line = false)
        (split_on "010" stdout)) ->
  get_local_network ip_route = "192.168.1.0/24".
Proof.
intros Hno. destruct ip_route as [stdout|e]; [|reflexivity].
unfold get_local_network.
pose proof (LocalNetworkFacts.first_default_skip
              (split_on "010" stdout) [] (Hno stdout eq_refl)) as H.
rewrite app_nil_r in H. rewrite H. reflexivity.
Qed.

Lemma get_local_network_fallback_witness :
  get_local_network
    (Ok ("10.0.0.0/24 dev eth0 proto kernel scope link"
         ++ String "010" "172.17.0.0/16 dev docker0 scope link"))
  = "192.168.1.0/24".
Proof.
apply get_local_network_fallback.
intros stdout H. injection H as <-.
vm_compute. constructor; [reflexivity|].
constructor; [reflexivity | constructor].
Defined.

(** X13.  When the first line of the [ip route] output that contains
    [default] reads [default via a.b.c.d], alone or followed by a blank
    and more, with [a], [b], [c], [d] made of ASCII characters other than
    blanks and no dot in [a], [b], [c], [get_local_network] returns
    [a.b.c.0/24]: the first three dot-separated parts of the gateway,
    whatever the fourth part and the real prefix length are. *)
Theorem get_local_network_from_gateway
  (stdout : string) (before after : list string) (a b c d tail : string) :
  split_on "010" stdout
  = (before
     ++ ("default via " ++ a ++ "." ++ b ++ "." ++ c ++ "." ++ d ++ tail)%string
     :: after)%list ->
  Forall (fun line => contains "default" line = false) before ->
  free_of (fun ch => negb (plain ch)) (a ++ b ++ c ++ d) = true ->
  free_of (fun ch => Ascii.eqb ch ".") (a ++ b ++ c) = true ->
  (tail = "" \/ blank_width tail <> 0%nat) ->
  get_local_network (Ok stdout) = a ++ "." ++ b ++ "." ++ c ++ ".0/24".
Proof.
intros Hsplit Hbefore Hblank Hdots Htail.
unfold get_local_network.
rewrite Hsplit, LocalNetworkFacts.first_default_skip by exact Hbefore.
rewrite LocalNetworkFacts.free_of_app in Hblank.
apply andb_prop in Hblank as [Ha Hblank].
rewrite LocalNetworkFacts.free_of_app in Hblank.
apply andb_prop in Hblank as [Hb Hblank].
rewrite LocalNetworkFacts.free_of_app in Hblank.
apply andb_prop in Hblank as [Hc Hd].
rewrite LocalNetworkFacts.free_of_app in Hdots.
apply andb_prop in Hdots as [Hda Hdots].
rewrite LocalNetworkFacts.free_of_app in Hdots.
apply andb_prop in Hdots as [Hdb Hdc].
set (gateway := a ++ "." ++ b ++ "." ++ c ++ "." ++ d).
assert (Hline : "default via " ++ a ++ "." ++ b ++ "." ++ c ++ "." ++ d ++ tail
                = "default via " ++ gateway ++ tail).
{ unfold gateway. rewrite !LocalNetworkFacts.app_assoc_s. reflexivity. }
rewrite Hline.
assert (Hgw : free_of (fun ch => negb (plain ch)) gateway = true).
{ unfold gateway. rewrite !LocalNetworkFacts.free_of_app.
  rewrite Ha, Hb, Hc, Hd. reflexivity. }
assert (Hne : is_empty gateway = false).
{ unfold gateway. apply LocalNetworkFacts.is_empty_app_cons. }
assert (Hthird : exists more,
          tokens (gateway ++ tail) "" 0 = gateway :: more).
{ rewrite LocalNetworkFacts.tokens_word by exact Hgw.
  change ("" ++ gateway) with gateway.
  destruct tail as [|sp rest].
  - simpl. rewrite Hne. eexists. reflexivity.
  - destruct Htail as [H|H]; [discriminate H|].
    cbn [tokens].
    destruct (blank_width (String sp rest)) as [|k]; [contradiction|].
    rewrite Hne. eexists. reflexivity. }
destruct Hthird as (more & Hthird).
assert (Htok : item (split_blank ("default via " ++ gateway ++ tail)) 2
               = Some gateway).
{ unfold split_blank.
  change (tokens ("default via " ++ gateway ++ tail) "" 0)
    with ("default" :: "via" :: tokens (gateway ++ tail) "" 0).
  rewrite Hthird. reflexivity. }
assert (Hcontains : contains "default" ("default via " ++ gateway ++ tail)
                    = true) by reflexivity.
cbn [first_default]. rewrite Hcontains, Htok.
assert (Hparts : firstn 3 (split_on "." gateway) = [a; b; c]).
{ unfold split_on, gateway.
  rewrite LocalNetworkFacts.fields_word by exact Hda. cbn.
  rewrite LocalNetworkFacts.fields_word by exact Hdb. cbn.
  rewrite LocalNetworkFacts.fields_word by exact Hdc. cbn.
  reflexivity. }
rewrite Hparts. cbn [join].
rewrite !LocalNetworkFacts.app_assoc_s. reflexivity.
Qed.

Lemma get_local_network_from_gateway_witness :
  get_local_network
    (Ok ("10.1.2.0/24 dev eth0 proto kernel scope link src 10.1.2.7"
         ++ String "010" "default via 10.1.2.254 dev eth0 proto dhcp"))
  = "10.1.2.0/24".
Proof.
apply (get_local_network_from_gateway _
         ["10.1.2.0/24 dev eth0 proto kernel scope link src 10.1.2.7"] []
         "10" "1" "2" "254" " dev eth0 proto dhcp").
- reflexivity.
- constructor; [reflexivity | constructor].
- reflexivity.
- reflexivity.
- right. vm_compute. discriminate.
Defined.

(** X14.  Only the first line that contains [default] is looked at: when
    it has fewer than three blank-separated words, taking the third raises
    and the function falls back to [192.168.1.0/24], whatever the later
    lines say. *)
Theorem get_local_network_first_default_decides
  (stdout : string) (before after : list string) (line : string) :
  split_on "010" stdout = (before ++ line :: after)%list ->
  Forall (fun l => contains "default" l = false) before ->
  contains "default" line = true ->
  (List.length (split_blank line) < 3)%nat ->
  get_local_network (Ok stdout) = "192.168.1.0/24".
Proof.
intros Hsplit Hbefore Hline Hshort. unfold get_local_network.
rewrite Hsplit, LocalNetworkFacts.first_default_skip by exact Hbefore.
assert (Hnone : item (split_blank line) 2 = None)
  by (apply nth_error_None; lia).
cbn [first_default]. rewrite Hline, Hnone. reflexivity.
Qed.

Lemma get_local_network_first_default_decides_witness :
  get_local_network
    (Ok ("default unreachable"
         ++ String "010" "default via 10.1.2.254 dev eth0"))
  = "192.168.1.0/24".
Proof.
apply (get_local_network_first_default_decides _
         [] ["default via 10.1.2.254 dev eth0"] "default unreachable").
- reflexivity.
- constructor.
- reflexivity.
- simpl. lia.
Defined.

(** ** Announcements *)

Module AnnounceFacts.
Import Announce.

Lemma byte_decimal_head (c : ascii) :
  exists h t, byte_decimal c = String h t /\ h <> "u"%char.
Proof.
destruct c as [[] [] [] [] [] [] [] []];
  (eexists; eexists; split; [vm_compute; reflexivity | discriminate]).
Qed.

Lemma inet_ntoa_not_unknown packed : inet_ntoa packed <> "unknown".
Proof.
destruct packed as [[[a b] c] d]. unfold inet_ntoa.
destruct (byte_decimal_head a) as (h & t & -> & Hh).
simpl. intros H. injection H as H _. apply Hh. exact H.
Qed.

Lemma rstrip_dot_local (device_id : string) :
  rstrip_dot (device_id ++ ".local.") = device_id ++ ".local".
Proof.
induction device_id as [|c rest IH].
- reflexivity.
- simpl. rewrite IH. destruct rest; reflexivity.
Qed.

Section Decoding.
Variable utf8_valid : string -> bool.

Lemma add_service_NoDup info name devices devices' :
  NoDup (PyDict.keys devices) ->
  add_service utf8_valid info name devices = Ok devices' ->
  NoDup (PyDict.keys devices').
Proof.
intros Hnd. unfold add_service.
destruct info as [info|]; [|intros H; injection H as <-; exact Hnd].
destruct (decode_property utf8_valid info "device_id" "unknown"); simpl;
  [|discriminate].
destruct (decode_property utf8_valid info "service" "Unknown"); simpl;
  [|discriminate].
destruct (decode_property utf8_valid info "version" "?"); simpl;
  [|discriminate].
intros H. injection H as <-.
apply PyDictFacts.NoDup_keys_set. exact Hnd.
Qed.

(** A callback that stores binds the name and touches no other name; one
    that does not store leaves the dictionary as it is. *)
Lemma add_service_stores info name devices :
  if stores utf8_valid info
  then exists entry,
         add_service utf8_valid info name devices
         = Ok (PyDict.set string_dec name entry devices)
  else deliver utf8_valid devices (Added name info) = devices.
Proof.
unfold stores, deliver, add_service.
destruct info as [info|]; [|reflexivity].
destruct (decode_property utf8_valid info "device_id" "unknown"); simpl;
  [|reflexivity].
destruct (decode_property utf8_valid info "service" "Unknown"); simpl;
  [|reflexivity].
destruct (decode_property utf8_valid info "version" "?"); simpl;
  [|reflexivity].
eexists. reflexivity.
Qed.

Lemma remove_service_NoDup name (devices : list (string * Listener.announced)) :
  NoDup (PyDict.keys devices) ->
  NoDup (PyDict.keys (Listener.remove_service name devices)).
Proof.
intros Hnd. unfold Listener.remove_service.
destruct (PyDict.mem string_dec name devices); [|exact Hnd].
clear - Hnd. induction devices as [|[k v] rest IH]; simpl; [constructor|].
inversion Hnd as [|? ? Hnotin Hrest]; subst.
destruct (string_dec name k); [exact Hrest|].
simpl. constructor; [|apply IH; exact Hrest].
intros Hin. apply Hnotin.
apply (PyDictFacts.get_in_keys string_dec).
apply (PyDictFacts.get_in_keys string_dec) in Hin.
rewrite PyDictFacts.get_del_other in Hin by exact n. exact Hin.
Qed.

Lemma deliver_NoDup devices c :
  NoDup (PyDict.keys devices) ->
  NoDup (PyDict.keys (deliver utf8_valid devices c)).
Proof.
intros Hnd. destruct c as [name info|name|name]; simpl.
- destruct (add_service utf8_valid info name devices) as [devices'|e] eqn:H;
    [|exact Hnd].
  apply (add_service_NoDup info name devices devices' Hnd H).
- apply remove_service_NoDup. exact Hnd.
- exact Hnd.
Qed.

Lemma mem_remove_service name n (devices : list (string * Listener.announced)) :
  NoDup (PyDict.keys devices) ->
  PyDict.mem string_dec name (Listener.remove_service n devices)
  = if String.eqb n name then false else PyDict.mem string_dec name devices.
Proof.
intros Hnd. unfold Listener.remove_service, PyDict.mem.
destruct (String.eqb_spec n name) as [->|Hne].
- destruct (PyDict.get string_dec name devices) eqn:Hget.
  + rewrite PyDictFacts.get_del_same by exact Hnd. reflexivity.
  + rewrite Hget. reflexivity.
- destruct (PyDict.get string_dec n devices); [|reflexivity].
  rewrite PyDictFacts.get_del_other by exact Hne. reflexivity.
Qed.

Lemma mem_deliver_added name n info devices :
  PyDict.mem string_dec name (deliver utf8_valid devices (Added n info))
  = if String.eqb n name && stores utf8_valid info then true
    else PyDict.mem string_dec name devices.
Proof.
pose proof (add_service_stores info n devices) as H.
destruct (stores utf8_valid info).
- destruct H as (entry & H). simpl. rewrite H. unfold PyDict.mem.
  destruct (String.eqb_spec n name) as [->|Hne]; simpl.
  + rewrite PyDictFacts.get_set_same. reflexivity.
  + rewrite PyDictFacts.get_set_other by exact Hne. reflexivity.
- rewrite H, andb_false_r. reflexivity.
Qed.

Lemma bound_after_run name callbacks devices :
  NoDup (PyDict.keys devices) ->
  PyDict.mem string_dec name (fold_left (deliver utf8_valid) callbacks devices)
  = bound_after utf8_valid name callbacks (PyDict.mem string_dec name devices).
Proof.
revert devices. induction callbacks as [|c rest IH]; intros devices Hnd.
- reflexivity.
- cbn [fold_left]. rewrite IH by (apply deliver_NoDup; exact Hnd).
  destruct c as [n info|n|n]; cbn [bound_after].
  + rewrite mem_deliver_added. reflexivity.
  + cbn [deliver]. rewrite mem_remove_service by exact Hnd. reflexivity.
  + reflexivity.
Qed.

Lemma run_NoDup callbacks devices :
  NoDup (PyDict.keys devices) ->
  NoDup (PyDict.keys (fold_left (deliver utf8_valid) callbacks devices)).
Proof.
revert devices. induction callbacks as [|c rest IH]; intros devices Hnd.
- exact Hnd.
- simpl. apply IH. apply deliver_NoDup. exact Hnd.
Qed.

End Decoding.
End AnnounceFacts.

Import Announce.

Lemma get_remove_service name k (devices : list (string * Listener.announced)) :
  NoDup (PyDict.keys devices) ->
  PyDict.get string_dec k (Listener.remove_service name devices)
  = if string_dec name k then None else PyDict.get string_dec k devices.
Proof.
intros Hnd. unfold Listener.remove_service, PyDict.mem.
destruct (string_dec name k) as [<-|Hne].
- destruct (PyDict.get string_dec name devices) eqn:Hget.
  + apply PyDictFacts.get_del_same. exact Hnd.
  + exact Hget.
- destruct (PyDict.get string_dec name devices); [|reflexivity].
  apply PyDictFacts.get_del_other. exact Hne.
Qed.

(** X15.  An announcement followed by the removal of the same service
    name leaves the listener's store as the removal alone would: the name
    is unbound and every other name keeps its entry. *)
Theorem added_then_removed
  (utf8_valid : string -> bool) (info : option service_info) (name : string)
  (devices devices' : list (string * Listener.announced)) :
  NoDup (PyDict.keys devices) ->
  add_service utf8_valid info name devices = Ok devices' ->
  PyDict.get string_dec name (Listener.remove_service name devices') = None
  /\ forall k,
       PyDict.get string_dec k (Listener.remove_service name devices')
       = PyDict.get string_dec k (Listener.remove_service name devices).
Proof.
intros Hnd Hadd.
pose proof (AnnounceFacts.add_service_NoDup utf8_valid info name devices
              devices' Hnd Hadd) as Hnd'.
assert (Hother : forall k, name <> k ->
          PyDict.get string_dec k devices' = PyDict.get string_dec k devices).
{ intros k Hne.
  pose proof (AnnounceFacts.add_service_stores utf8_valid info name devices)
    as Hs.
  destruct (stores utf8_valid info).
  - destruct Hs as (entry & Hs). rewrite Hs in Hadd. injection Hadd as <-.
    apply PyDictFacts.get_set_other. exact Hne.
  - simpl in Hs. rewrite Hadd in Hs. rewrite Hs. reflexivity. }
split.
- rewrite get_remove_service by exact Hnd'.
  destruct (string_dec name name); [reflexivity | contradiction].
- intros k. rewrite !get_remove_service by assumption.
  destruct (string_dec name k); [reflexivity | apply Hother; assumption].
Qed.

Lemma added_then_removed_witness :
  NoDup (PyDict.keys [("pi-02._ewego._tcp.local.", announced_pi01)])
  /\ PyDict.get string_dec "pi-01._ewego._tcp.local."
       (Listener.remove_service "pi-01._ewego._tcp.local."
          (PyDict.set string_dec "pi-01._ewego._tcp.local."
             {| Listener.device_id := "pi-01";
                Listener.service_name := "EweGo System Health";
                Listener.version := "1.0";
                Listener.ip := "10.0.0.5";
                Listener.port := 5000;
                Listener.hostname := "pi-01.local" |}
             [("pi-02._ewego._tcp.local.", announced_pi01)]))
     = None.
Proof.
assert (Hn : NoDup (PyDict.keys [("pi-02._ewego._tcp.local.", announced_pi01)]))
  by (constructor; [intros [] | constructor]).
split; [exact Hn|].
exact (proj1 (added_then_removed (fun _ => true)
                (Some (advertised "pi-01" 5000
                         ("010"%char, "000"%char, "000"%char, "005"%char)))
                "pi-01._ewego._tcp.local."
                [("pi-02._ewego._tcp.local.", announced_pi01)] _ Hn eq_refl)).
Defined.

(** X16.  The store [discover_devices] returns holds each service name
    once, and a name is in it exactly when the last callback for that name
    that either stored an entry or removed it was one that stored:
    announcements that did not resolve or did not decode, and updates,
    change nothing. *)
Theorem discover_devices_last_callback
  (utf8_valid : string -> bool) (callbacks : list callback) :
  NoDup (PyDict.keys (discover_devices utf8_valid callbacks))
  /\ forall name,
       PyDict.mem string_dec name (discover_devices utf8_valid callbacks)
       = bound_after utf8_valid name callbacks false.
Proof.
unfold discover_devices. split.
- apply AnnounceFacts.run_NoDup. constructor.
- intros name.
  apply (AnnounceFacts.bound_after_run utf8_valid name callbacks []).
  constructor.
Qed.

(** X17.  What the listener stores for a device that [EweGoMDNS]
    advertises: under the service name [<device_id>._ewego._tcp.local.],
    an entry with the advertiser's device_id, service
    [EweGo System Health], version [1.0], the advertised address in
    dotted form, the advertised port and the host name
    [<device_id>.local], without the trailing dot of the server name. *)
Theorem advertised_device_is_stored
  (utf8_valid : string -> bool) (device_id : string) (port : Z)
  (local_ip : ascii * ascii * ascii * ascii)
  (devices : list (string * Listener.announced)) :
  utf8_valid device_id = true ->
  (forall s, ascii_only s = true -> utf8_valid s = true) ->
  add_service utf8_valid (Some (advertised device_id port local_ip))
    (service_name_of device_id) devices
  = Ok (PyDict.set string_dec (device_id ++ "._ewego._tcp.local.")
          {| Listener.device_id := device_id;
             Listener.service_name := "EweGo System Health";
             Listener.version := "1.0";
             Listener.ip := inet_ntoa local_ip;
             Listener.port := port;
             Listener.hostname := device_id ++ ".local" |}
          devices).
Proof.
intros Hid Hascii.
unfold add_service, decode_property, decode, advertised.
cbn [properties addresses Announce.port server PyDict.get_default PyDict.get].
simpl. rewrite Hid. simpl.
rewrite (Hascii "EweGo System Health" eq_refl). simpl.
rewrite (Hascii "1.0" eq_refl). simpl.
rewrite AnnounceFacts.rstrip_dot_local. reflexivity.
Qed.

Lemma advertised_device_is_stored_witness :
  ascii_only "americanPI" = true
  /\ (forall s, ascii_only s = true -> ascii_only s = true)
  /\ PyDict.get string_dec "americanPI._ewego._tcp.local."
       (discover_devices ascii_only
          [Added "americanPI._ewego._tcp.local."
             (Some (advertised "americanPI" 5000
                      ("192"%char, "168"%char, "001"%char, "020"%char)))])
     = Some {| Listener.device_id := "americanPI";
               Listener.service_name := "EweGo System Health";
               Listener.version := "1.0";
               Listener.ip := "192.168.1.20";
               Listener.port := 5000;
               Listener.hostname := "americanPI.local" |}.
Proof.
assert (H1 : ascii_only "americanPI" = true) by reflexivity.
assert (H2 : forall s, ascii_only s = true -> ascii_only s = true)
  by (intros s H; exact H).
split; [exact H1|]. split; [exact H2|].
unfold discover_devices. cbn [fold_left deliver].
change "americanPI._ewego._tcp.local." with (service_name_of "americanPI")
  at 2.
rewrite (advertised_device_is_stored ascii_only "americanPI" 5000
           ("192"%char, "168"%char, "001"%char, "020"%char) [] H1 H2).
reflexivity.
Defined.

(** X18.  The entry an announcement stores carries the literal address
    [unknown] exactly when the announcement has no address; otherwise it
    carries the first address in dotted form.  Its port is the announced
    port and its host name the server name without trailing dots. *)
Theorem stored_address
  (utf8_valid : string -> bool) (info : service_info) (name : string)
  (devices devices' : list (string * Listener.announced)) :
  add_service utf8_valid (Some info) name devices = Ok devices' ->
  exists entry,
    PyDict.get string_dec name devices' = Some entry
    /\ (Listener.ip entry = "unknown" <-> addresses info = [])
    /\ (forall first rest,
          addresses info = first :: rest ->
          Listener.ip entry = inet_ntoa first)
    /\ Listener.port entry = Announce.port info
    /\ Listener.hostname entry = rstrip_dot (server info).
Proof.
unfold add_service.
destruct (decode_property utf8_valid info "device_id" "unknown"); simpl;
  [|discriminate].
destruct (decode_property utf8_valid info "service" "Unknown"); simpl;
  [|discriminate].
destruct (decode_property utf8_valid info "version" "?"); simpl;
  [|discriminate].
intros H. injection H as <-.
eexists. split; [apply PyDictFacts.get_set_same|]. simpl.
destruct (addresses info) as [|first rest].
- repeat split; try reflexivity. intros first rest H. discriminate H.
- repeat split; try discriminate.
  + intros H. exfalso. exact (AnnounceFacts.inet_ntoa_not_unknown first H).
  + intros f r H. injection H as <- _. reflexivity.
Qed.

Lemma stored_address_witness :
  exists entry,
    PyDict.get string_dec "cam._ewego._tcp.local."
      (PyDict.set string_dec "cam._ewego._tcp.local."
         {| Listener.device_id := "unknown";
            Listener.service_name := "Unknown";
            Listener.version := "?";
            Listener.ip := "unknown";
            Listener.port := 8080;
            Listener.hostname := "cam.local" |} [])
    = Some entry
    /\ (Listener.ip entry = "unknown" <-> @nil (ascii * ascii * ascii * ascii) = []).
Proof.
destruct (stored_address (fun _ => true)
            {| properties := []; addresses := []; port := 8080;
               server := "cam.local.." |}
            "cam._ewego._tcp.local." [] _ eq_refl)
  as (entry & Hget & Hip & _).
exists entry. split; [exact Hget | exact Hip].
Defined.
